(** * Solar potential scoring and CSV loading: a shallow embedding

    This development embeds the two functions of [app/utils.py] that carry
    logic, [load_data] and [create_solar_score], and proves properties of
    them.

    Numbers.  Python floats are modelled by the type [num]: a finite value is
    an exact real number, and the three special values of IEEE arithmetic
    that the code can produce from finite cells (NaN from an empty or
    one-row statistic, plus or minus infinity from a division by zero) are
    constructors of their own.  Rounding, overflow and the sign of zero are
    not modelled, and a numeric column holds finite values only: no cell is
    missing.

    pandas.  A [DataFrame] is an index together with named columns.  The
    statistics the scorer calls ([mean], [std] with one delta degree of
    freedom, [quantile] with linear interpolation, the mean of a boolean
    series) are written out on lists of reals.  [read_csv] and [to_datetime]
    are parameters of the loader.

    Exceptions.  A computation that may raise has type [outcome A]. *)

From Stdlib Require Import Reals Lra Lia ZArith Bool DecimalString String Ascii List Sorted.
Import ListNotations.

Open Scope string_scope.
Open Scope list_scope.
Open Scope R_scope.

(** ** Exceptions *)

Record exn : Type := mkExn { exn_class : string; exn_str : string }.

Inductive outcome (A : Type) : Type :=
| Return (a : A)
| Raise (e : exn).

Arguments Return {A} a.
Arguments Raise {A} e.

Definition bind {A B : Type} (c : outcome A) (k : A -> outcome B) : outcome B :=
  match c with
  | Return a => k a
  | Raise e => Raise e
  end.

Notation "x <- c ;; k" := (bind c (fun x => k))
  (at level 61, c at next level, right associativity).

Definition KeyError (key : string) : exn :=
  mkExn "KeyError" ("'" ++ key ++ "'")%string.

Definition TypeError (msg : string) : exn := mkExn "TypeError" msg.

Definition AttributeError (obj attr : string) : exn :=
  mkExn "AttributeError"
        ("'" ++ obj ++ "' object has no attribute '" ++ attr ++ "'")%string.

(** ** Numbers *)

Inductive num : Type :=
| NaN
| PInf
| NInf
| Fin (r : R).

Definition Rltb (x y : R) : bool := if Rlt_dec x y then true else false.

Definition Rsign (r : R) : comparison :=
  if Rlt_dec 0 r then Gt else if Rlt_dec r 0 then Lt else Eq.

Definition nneg (a : num) : num :=
  match a with
  | NaN => NaN
  | PInf => NInf
  | NInf => PInf
  | Fin r => Fin (- r)
  end.

Definition nadd (a b : num) : num :=
  match a, b with
  | NaN, _ | _, NaN => NaN
  | PInf, NInf | NInf, PInf => NaN
  | PInf, _ | _, PInf => PInf
  | NInf, _ | _, NInf => NInf
  | Fin x, Fin y => Fin (x + y)
  end.

Definition nsub (a b : num) : num :=
  match a, b with
  | NaN, _ | _, NaN => NaN
  | PInf, PInf | NInf, NInf => NaN
  | PInf, _ | _, NInf => PInf
  | NInf, _ | _, PInf => NInf
  | Fin x, Fin y => Fin (x - y)
  end.

(** An infinity scaled by a finite factor keeps or flips its sign; scaled by
    zero it is NaN. *)
Definition inf_scaled (positive : bool) (r : R) : num :=
  match Rsign r with
  | Gt => if positive then PInf else NInf
  | Lt => if positive then NInf else PInf
  | Eq => NaN
  end.

Definition nmul (a b : num) : num :=
  match a, b with
  | NaN, _ | _, NaN => NaN
  | PInf, PInf | NInf, NInf => PInf
  | PInf, NInf | NInf, PInf => NInf
  | PInf, Fin r | Fin r, PInf => inf_scaled true r
  | NInf, Fin r | Fin r, NInf => inf_scaled false r
  | Fin x, Fin y => Fin (x * y)
  end.

(** Division of numpy float64 scalars: dividing by zero does not raise, it
    gives an infinity (or NaN for 0/0) and a warning. *)
Definition ndiv (a b : num) : num :=
  match a, b with
  | NaN, _ | _, NaN => NaN
  | PInf, PInf | PInf, NInf | NInf, PInf | NInf, NInf => NaN
  | PInf, Fin r => match Rsign r with Lt => NInf | _ => PInf end
  | NInf, Fin r => match Rsign r with Lt => PInf | _ => NInf end
  | Fin _, PInf | Fin _, NInf => Fin 0
  | Fin x, Fin y =>
      match Rsign y with
      | Eq => inf_scaled true x
      | _ => Fin (x / y)
      end
  end.

(** [a > b] on floats: false as soon as one side is NaN. *)
Definition ngt (a b : num) : bool :=
  match a, b with
  | NaN, _ | _, NaN => false
  | PInf, PInf => false
  | PInf, _ => true
  | NInf, _ => false
  | Fin _, PInf => false
  | Fin _, NInf => true
  | Fin x, Fin y => Rltb y x
  end.

(** Python's builtin [max(a, b)] on two arguments: the first one, unless the
    second is strictly greater. *)
Definition py_max (a b : num) : num := if ngt b a then b else a.

Definition nsqrt (a : num) : num :=
  match a with
  | NaN => NaN
  | PInf => PInf
  | NInf => NaN
  | Fin r => if Rlt_dec r 0 then NaN else Fin (sqrt r)
  end.

(** Python's builtin [sum]: starts from 0 and adds from left to right. *)
Definition py_sum (xs : list num) : num := fold_left nadd xs (Fin 0).

(** ** pandas series statistics *)

Definition Rsum (xs : list R) : R := fold_right Rplus 0 xs.

(** [Series.mean()]: NaN on an empty series. *)
Definition mean (xs : list R) : num :=
  match xs with
  | [] => NaN
  | _ :: _ => Fin (Rsum xs / INR (length xs))
  end.

(** The sum of the squared deviations from the average. *)
Definition sq_dev (xs : list R) : R :=
  let avg := Rsum xs / INR (length xs) in
  Rsum (map (fun x => (avg - x) * (avg - x)) xs).

(** [Series.var()] with the default [ddof=1]: NaN unless there are at least
    two values. *)
Definition var (xs : list R) : num :=
  if (length xs <=? 1)%nat then NaN
  else Fin (sq_dev xs / INR (length xs - 1)).

Definition std (xs : list R) : num := nsqrt (var xs).

Fixpoint insert (x : R) (l : list R) : list R :=
  match l with
  | [] => [x]
  | y :: t => if Rle_dec x y then x :: y :: t else y :: insert x t
  end.

Fixpoint sort (l : list R) : list R :=
  match l with
  | [] => []
  | x :: t => insert x (sort t)
  end.

(** [Series.quantile(p/q)] with the default linear interpolation: the
    virtual position [(n-1) * p/q] in the sorted values, interpolated between
    its two neighbours. *)
Definition quantile (xs : list R) (p q : nat) : num :=
  match xs with
  | [] => NaN
  | _ :: _ =>
      let s := sort xs in
      let n := length xs in
      let lo := ((n - 1) * p / q)%nat in
      let hi := Nat.min (lo + 1) (n - 1) in
      let g := INR (((n - 1) * p) mod q) / INR q in
      Fin (nth lo s 0 + (nth hi s 0 - nth lo s 0) * g)
  end.

(** The elementwise comparison [series > t]. *)
Definition gt_series (xs : list R) (t : num) : list bool :=
  map (fun x => ngt (Fin x) t) xs.

Definition count_true (bs : list bool) : nat := length (filter (fun b => b) bs).

(** The mean of a boolean series: the fraction of [True], NaN when empty. *)
Definition bool_mean (bs : list bool) : num :=
  match bs with
  | [] => NaN
  | _ :: _ => Fin (INR (count_true bs) / INR (length bs))
  end.

(** ** Data frames *)

Record datetime : Type := mkDatetime {
  dt_year : Z; dt_month : Z; dt_day : Z;
  dt_hour : Z; dt_minute : Z; dt_second : Z
}.

Inductive Column : Type :=
| FloatCol (xs : list R)
| IntCol (zs : list Z)
| ObjCol (ss : list string)
| DateCol (ds : list datetime).

Inductive Index : Type :=
| RangeIndex (stop : nat)
| DatetimeIndex (name : string) (values : list datetime).

Record DataFrame : Type := mkDataFrame {
  index : Index;
  columns : list (string * Column)
}.

Definition has_column (name : string) (df : DataFrame) : bool :=
  existsb (fun c => String.eqb name (fst c)) (columns df).

Definition get_column (name : string) (df : DataFrame) : option Column :=
  match find (fun c => String.eqb name (fst c)) (columns df) with
  | Some c => Some (snd c)
  | None => None
  end.

Definition column_length (c : Column) : nat :=
  match c with
  | FloatCol xs => length xs
  | IntCol zs => length zs
  | ObjCol ss => length ss
  | DateCol ds => length ds
  end.

Definition index_length (i : Index) : nat :=
  match i with
  | RangeIndex stop => stop
  | DatetimeIndex _ values => length values
  end.

(** [len(df)] *)
Definition len (df : DataFrame) : nat := index_length (index df).

(** Every column has as many cells as the index has labels. *)
Definition rectangular (df : DataFrame) : Prop :=
  forall name c, In (name, c) (columns df) -> column_length c = len df.

(** The values of a column as floats; arithmetic and comparison with a
    number raise [TypeError] on a column of strings or of datetimes. *)
Definition numeric (name : string) (c : Column) : outcome (list R) :=
  match c with
  | FloatCol xs => Return xs
  | IntCol zs => Return (map IZR zs)
  | ObjCol _ | DateCol _ =>
      Raise (TypeError ("column " ++ name ++ " is not numeric")%string)
  end.

(** [df[name]] read as a numeric series. *)
Definition series (name : string) (df : DataFrame) : outcome (list R) :=
  match get_column name df with
  | Some c => numeric name c
  | None => Raise (KeyError name)
  end.

(** ** Python dictionaries with string keys, in insertion order *)

Definition dict : Type := list (string * num).

Fixpoint dict_set (k : string) (v : num) (d : dict) : dict :=
  match d with
  | [] => [(k, v)]
  | (k', v') :: t =>
      if String.eqb k k' then (k, v) :: t else (k', v') :: dict_set k v t
  end.

Fixpoint dict_lookup (k : string) (d : dict) : option num :=
  match d with
  | [] => None
  | (k', v) :: t => if String.eqb k k' then Some v else dict_lookup k t
  end.

(** [d[k]]: raises [KeyError] when the key is missing. *)
Definition dict_get (k : string) (d : dict) : outcome num :=
  match dict_lookup k d with
  | Some v => Return v
  | None => Raise (KeyError k)
  end.

Definition values (d : dict) : list num := map snd d.

(** ** The scorer: [create_solar_score] *)

Record ScoreRecord : Type := mkScoreRecord {
  total_score : num;
  components : dict;
  raw_scores : dict
}.

(** [df['GHI'].mean()] *)
Definition energy_score (ghi : list R) : num := mean ghi.

(** [(1 - (df['GHI'].std() / df['GHI'].mean())) * 100] *)
Definition consistency (ghi : list R) : num :=
  nmul (nsub (Fin 1) (ndiv (std ghi) (mean ghi))) (Fin 100).

(** [df['GHI'].quantile(0.7)] *)
Definition optimal_threshold (ghi : list R) : num := quantile ghi 7 10.

(** [(df['GHI'] > optimal_threshold).mean() * 100] *)
Definition reliability (ghi : list R) : num :=
  nmul (bool_mean (gt_series ghi (optimal_threshold ghi))) (Fin 100).

(** [(df['RH'] > 85).mean() * 100] *)
Definition high_humidity (rh : list R) : num :=
  nmul (bool_mean (gt_series rh (Fin 85))) (Fin 100).

(** [max(energy_score, 500)] *)
Definition max_energy (ghi : list R) : num := py_max (energy_score ghi) (Fin 500).

(** [(energy_score / max_energy) * 40] *)
Definition energy_weighted (ghi : list R) : num :=
  nmul (ndiv (energy_score ghi) (max_energy ghi)) (Fin 40).

(** The weather score before the final floor: 100, less half the
    high-humidity percentage when there is an [RH] column. *)
Definition weather_score (df : DataFrame) : outcome num :=
  if has_column "RH" df then
    rh <- series "RH" df ;;
    Return (nsub (Fin 100) (nmul (high_humidity rh) (Fin 0.5)))
  else Return (Fin 100).

Definition create_solar_score (df : DataFrame) : outcome (option ScoreRecord) :=
  if negb (has_column "GHI" df) then Return None
  else
    ghi <- series "GHI" df ;;
    let scores : dict := [] in
    let scores := dict_set "energy" (energy_score ghi) scores in
    let scores :=
      if ngt (std ghi) (Fin 0)
      then dict_set "consistency" (py_max (consistency ghi) (Fin 0)) scores
      else scores in
    let scores := dict_set "reliability" (reliability ghi) scores in
    weather <- weather_score df ;;
    let scores := dict_set "weather" (py_max weather (Fin 0)) scores in
    raw_consistency <- dict_get "consistency" scores ;;
    raw_weather <- dict_get "weather" scores ;;
    let normalized_scores : dict :=
      [ ("energy", energy_weighted ghi);
        ("consistency", nmul (ndiv raw_consistency (Fin 100)) (Fin 30));
        ("reliability", nmul (ndiv (reliability ghi) (Fin 100)) (Fin 20));
        ("weather", nmul (ndiv raw_weather (Fin 100)) (Fin 10)) ] in
    Return (Some {| total_score := py_sum (values normalized_scores);
                    components := normalized_scores;
                    raw_scores := scores |}).

(** The record assembled by the last lines of the scorer, given the raw
    consistency and the unfloored weather score. *)
Definition assembled (ghi : list R) (weather : num) : ScoreRecord :=
  let raw_consistency := py_max (consistency ghi) (Fin 0) in
  let raw_weather := py_max weather (Fin 0) in
  let normalized_scores : dict :=
    [ ("energy", energy_weighted ghi);
      ("consistency", nmul (ndiv raw_consistency (Fin 100)) (Fin 30));
      ("reliability", nmul (ndiv (reliability ghi) (Fin 100)) (Fin 20));
      ("weather", nmul (ndiv raw_weather (Fin 100)) (Fin 10)) ] in
  {| total_score := py_sum (values normalized_scores);
     components := normalized_scores;
     raw_scores := [ ("energy", energy_score ghi);
                     ("consistency", raw_consistency);
                     ("reliability", reliability ghi);
                     ("weather", raw_weather) ] |}.

(** ** Calendar features of a datetime *)

(** Days since 1970-01-01 of a date in the proleptic Gregorian calendar. *)
Definition days_from_civil (y m d : Z) : Z :=
  let y' := (if m <=? 2 then y - 1 else y)%Z in
  let era := (y' / 400)%Z in
  let yoe := (y' - era * 400)%Z in
  let mp := ((m + 9) mod 12)%Z in
  let doy := ((153 * mp + 2) / 5 + d - 1)%Z in
  let doe := (yoe * 365 + yoe / 4 - yoe / 100 + doy)%Z in
  (era * 146097 + doe - 719468)%Z.

(** [DatetimeIndex.dayofweek]: Monday is 0 and Sunday is 6. *)
Definition dt_dayofweek (t : datetime) : Z :=
  ((days_from_civil (dt_year t) (dt_month t) (dt_day t) + 3) mod 7)%Z.

(** [df.index.<attr>] for the three calendar attributes: only a
    [DatetimeIndex] has them. *)
Definition index_attr (attr : string) (field : datetime -> Z) (i : Index)
  : outcome (list Z) :=
  match i with
  | RangeIndex _ => Raise (AttributeError "RangeIndex" attr)
  | DatetimeIndex _ values => Return (map field values)
  end.

(** ** Data frame updates *)

(** [df[name] = col]: overwrites a column of that name in place, or appends
    a new last column. *)
Fixpoint assign (name : string) (col : Column) (cols : list (string * Column))
  : list (string * Column) :=
  match cols with
  | [] => [(name, col)]
  | (k, c) :: t =>
      if String.eqb name k then (name, col) :: t else (k, c) :: assign name col t
  end.

Definition set_column (name : string) (col : Column) (df : DataFrame) : DataFrame :=
  {| index := index df; columns := assign name col (columns df) |}.

(** [df.set_index(name, inplace=True)] for a column of datetimes: the values
    become the index, and the column leaves the column set. *)
Definition set_index (name : string) (values : list datetime) (df : DataFrame)
  : DataFrame :=
  {| index := DatetimeIndex name values;
     columns := filter (fun c => negb (String.eqb name (fst c))) (columns df) |}.

(** Decimal rendering of a natural number, as [str] or an f-string does. *)
Definition str_of_nat (n : nat) : string :=
  NilEmpty.string_of_uint (Nat.to_uint n).

(** ** The loader: [load_data] *)

Definition timestamp_cols : list string :=
  ["Timestamp"; "timestamp"; "Date"; "date"; "Time"; "time"].

Section Loader.

(** The uploaded file and the two pandas entry points the loader calls. *)
Variable File : Type.
Variable read_csv : File -> outcome DataFrame.
Variable to_datetime : Column -> outcome (list datetime).

(** The loop over the candidate names, leaving at the first one that is a
    column. *)
Fixpoint detect_timestamp (cols : list string) (df : DataFrame)
  : outcome DataFrame :=
  match cols with
  | [] => Return df
  | col :: rest =>
      if has_column col df then
        match get_column col df with
        | Some c =>
            values <- to_datetime c ;;
            Return (set_index col values (set_column col (DateCol values) df))
        | None => Raise (KeyError col)
        end
      else detect_timestamp rest df
  end.

(** The body of the [try] block. *)
Definition load_data_try (uploaded_file : File) : outcome (DataFrame * string) :=
  df <- read_csv uploaded_file ;;
  df <- detect_timestamp timestamp_cols df ;;
  hour <- index_attr "hour" dt_hour (index df) ;;
  let df := set_column "Hour" (IntCol hour) df in
  month <- index_attr "month" dt_month (index df) ;;
  let df := set_column "Month" (IntCol month) df in
  dayofweek <- index_attr "dayofweek" dt_dayofweek (index df) ;;
  let df := set_column "DayOfWeek" (IntCol dayofweek) df in
  Return (df,
          ("Successfully loaded " ++ str_of_nat (len df) ++ " rows with "
           ++ str_of_nat (List.length (columns df)) ++ " columns")%string).

(** The whole function: [except Exception] turns whatever was raised into
    the null table and a message. *)
Definition load_data (uploaded_file : File) : option DataFrame * string :=
  match load_data_try uploaded_file with
  | Return (df, message) => (Some df, message)
  | Raise e => (None, ("Error loading file: " ++ exn_str e)%string)
  end.

End Loader.

(** ** Units of the recognised columns: [get_units] *)





(** ** What the dashboard shows for a score *)

(** [a >= b] on floats: false as soon as one side is NaN. *)
Definition nge (a b : num) : bool :=
  match a, b with
  | NaN, _ | _, NaN => false
  | PInf, _ => true
  | _, NInf => true
  | NInf, _ => false
  | Fin _, PInf => false
  | Fin x, Fin y => negb (Rltb x y)
  end.

(** The three callouts of the Insights tab of [main]: [st.success] with
    EXCELLENT POTENTIAL, [st.warning] with GOOD POTENTIAL and [st.error]
    with MODERATE POTENTIAL. *)
Inductive Potential : Type := Excellent | Good | Moderate.

(** The callout [main] chooses from [score_data]; none when the score is
    the null result. *)
Definition main_insight (score_data : option ScoreRecord) : option Potential :=
  match score_data with
  | None => None
  | Some rec =>
      if nge (total_score rec) (Fin 80) then Some Excellent
      else if nge (total_score rec) (Fin 60) then Some Good
      else Some Moderate
  end.

(** The [delta] caption under the overall score that
    [render_solar_scorecard] shows; none when it returns at once on the
    null result. *)
Definition render_solar_scorecard_delta (score_data : option ScoreRecord)
  : option string :=
  match score_data with
  | None => None
  | Some rec =>
      Some (if ngt (total_score rec) (Fin 70) then "High Potential" else "Moderate")
  end.

(** ** The default metric selection of [render_sidebar_filters] *)

Definition is_number (c : Column) : bool :=
  match c with
  | FloatCol _ | IntCol _ => true
  | ObjCol _ | DateCol _ => false
  end.

(** [df.select_dtypes(include=[np.number]).columns.tolist()] *)
Definition numeric_cols (df : DataFrame) : list string :=
  map fst (filter (fun c => is_number (snd c)) (columns df)).

(** [numeric_cols[:3] if len(numeric_cols) >= 3 else numeric_cols] *)
Definition default_metrics (df : DataFrame) : list string :=
  if (3 <=? List.length (numeric_cols df))%nat
  then firstn 3 (numeric_cols df)
  else numeric_cols df.

(** ** The daily pattern figure: [create_daily_pattern] *)

Definition Rleb (x y : R) : bool := if Rle_dec x y then true else false.

Definition datetime_fields (t : datetime) : list Z :=
  [dt_year t; dt_month t; dt_day t; dt_hour t; dt_minute t; dt_second t].

Fixpoint lex_leb (a b : list Z) : bool :=
  match a, b with
  | [], _ => true
  | _ :: _, [] => false
  | x :: a', y :: b' => (x <? y)%Z || ((x =? y)%Z && lex_leb a' b')
  end.

Definition datetime_leb (s t : datetime) : bool :=
  lex_leb (datetime_fields s) (datetime_fields t).

Section GroupBy.

(** The type of the grouping keys and its order. *)
Variable K : Type.
Variable leb : K -> K -> bool.

Definition key_eqb (a b : K) : bool := leb a b && leb b a.

Fixpoint insert_key (k : K) (ks : list K) : list K :=
  match ks with
  | [] => [k]
  | y :: t =>
      if leb k y then (if leb y k then y :: t else k :: y :: t)
      else y :: insert_key k t
  end.

(** The keys of [groupby]: each key once, in ascending order. *)
Definition group_keys (ks : list K) : list K := fold_right insert_key [] ks.

(** The values of the rows whose key is [k], in row order. *)
Definition group_rows (k : K) (rows : list (K * R)) : list R :=
  map snd (filter (fun r => key_eqb (fst r) k) rows).

(** [groupby(key)[value].agg(['mean', 'std'])]: per key, the mean and the
    standard deviation of its rows. *)
Definition groupby_mean_std (keys : list K) (vals : list R)
  : list K * list num * list num :=
  let ks := group_keys keys in
  let rows := combine keys vals in
  (ks,
   map (fun k => mean (group_rows k rows)) ks,
   map (fun k => std (group_rows k rows)) ks).

End GroupBy.

(** The frame [hourly_pattern] after [reset_index()]: the key column and
    the two aggregates. *)
Record HourlyPattern : Type := mkHourlyPattern {
  hp_Hour : Column;
  hp_mean : list num;
  hp_std : list num
}.

Definition hourly_pattern (hour : Column) (ghi : list R) : HourlyPattern :=
  match hour with
  | IntCol hs =>
      let '(ks, m, s) := groupby_mean_std Z Z.leb hs ghi in
      mkHourlyPattern (IntCol ks) m s
  | FloatCol xs =>
      let '(ks, m, s) := groupby_mean_std R Rleb xs ghi in
      mkHourlyPattern (FloatCol ks) m s
  | ObjCol ss =>
      let '(ks, m, s) := groupby_mean_std string String.leb ss ghi in
      mkHourlyPattern (ObjCol ks) m s
  | DateCol ds =>
      let '(ks, m, s) := groupby_mean_std datetime datetime_leb ds ghi in
      mkHourlyPattern (DateCol ks) m s
  end.

(** Elementwise [a + b] and [a - b] of two series of one frame. *)
Definition series_add (a b : list num) : list num :=
  map (fun p => nadd (fst p) (snd p)) (combine a b).

Definition series_sub (a b : list num) : list num :=
  map (fun p => nsub (fst p) (snd p)) (combine a b).

Record Line : Type := mkLine {
  line_color : string;
  line_width : Z;
  line_dash : option string
}.

(** [go.Scatter(...)] with the arguments the code passes. *)
Record Scatter : Type := mkScatter {
  scatter_x : Column;
  scatter_y : list num;
  scatter_mode : string;
  scatter_name : string;
  scatter_line : Line;
  scatter_fill : option string
}.

Record Figure : Type := mkFigure {
  fig_data : list Scatter;
  fig_title : option string;
  fig_xaxis_title : option string;
  fig_yaxis_title : option string
}.

(** [go.Figure()] *)
Definition empty_figure : Figure := mkFigure [] None None None.

Definition add_trace (fig : Figure) (trace : Scatter) : Figure :=
  mkFigure (fig_data fig ++ [trace])
           (fig_title fig) (fig_xaxis_title fig) (fig_yaxis_title fig).

Definition update_layout (fig : Figure) (title xaxis_title yaxis_title : string)
  : Figure :=
  mkFigure (fig_data fig) (Some title) (Some xaxis_title) (Some yaxis_title).

Definition create_daily_pattern (df : DataFrame) : outcome (option Figure) :=
  if has_column "GHI" df && has_column "Hour" df then
    match get_column "Hour" df with
    | None => Raise (KeyError "Hour")
    | Some hour =>
        ghi <- series "GHI" df ;;
        let hp := hourly_pattern hour ghi in
        let fig := empty_figure in
        let fig :=
          add_trace fig
            (mkScatter (hp_Hour hp) (hp_mean hp) "lines+markers" "Average GHI"
                       (mkLine "#FF6B00" 3 None) None) in
        let fig :=
          add_trace fig
            (mkScatter (hp_Hour hp) (series_add (hp_mean hp) (hp_std hp))
                       "lines" "+1 STD" (mkLine "gray" 1 (Some "dash")) None) in
        let fig :=
          add_trace fig
            (mkScatter (hp_Hour hp) (series_sub (hp_mean hp) (hp_std hp))
                       "lines" "-1 STD" (mkLine "gray" 1 (Some "dash"))
                       (Some "tonexty")) in
        let fig :=
          update_layout fig "Daily Solar Pattern with Variability"
                        "Hour of Day" "GHI (W/m²)" in
        Return (Some fig)
    end
  else Return None.

(** ** Sample tables *)

(** A table whose only column is [GHI]. *)
Definition ghi_table (ghi : list R) : DataFrame :=
  {| index := RangeIndex (List.length ghi); columns := [("GHI", FloatCol ghi)] |}.

Definition varying_table : DataFrame :=
  {| index := RangeIndex 3;
     columns := [ ("GHI", FloatCol [100; 200; 300]);
                  ("RH", FloatCol [50; 90; 60]) ] |}.

Definition humidity_only_table : DataFrame :=
  {| index := RangeIndex 2; columns := [("RH", FloatCol [50; 90])] |}.

Definition flat_table : DataFrame := ghi_table [5; 5].

Definition bright_flat_table : DataFrame := ghi_table [600; 600].

Definition negative_table : DataFrame := ghi_table [-11; -1; 9].

(** ** A sample instance of the loader's parameters *)

(** A file that has been read already: reading it returns its table. *)
Definition read_parsed (df : DataFrame) : outcome DataFrame := Return df.

Definition digit (c : ascii) : option Z :=
  let n := nat_of_ascii c in
  if ((48 <=? n) && (n <=? 57))%nat then Some (Z.of_nat (n - 48)) else None.

Fixpoint digits (cs : list ascii) (acc : Z) : option Z :=
  match cs with
  | [] => Some acc
  | c :: rest =>
      match digit c with
      | Some d => digits rest (10 * acc + d)%Z
      | None => None
      end
  end.

(** Reads the one format [YYYY-MM-DD HH:MM:SS]. *)
Definition parse_iso (s : string) : option datetime :=
  match list_ascii_of_string s with
  | [y1; y2; y3; y4; "-"; m1; m2; "-"; d1; d2; " ";
     h1; h2; ":"; n1; n2; ":"; s1; s2]%char =>
      match digits [y1; y2; y3; y4] 0, digits [m1; m2] 0, digits [d1; d2] 0,
            digits [h1; h2] 0, digits [n1; n2] 0, digits [s1; s2] 0 with
      | Some y, Some m, Some d, Some h, Some n, Some sec =>
          Some (mkDatetime y m d h n sec)
      | _, _, _, _, _, _ => None
      end
  | _ => None
  end.

Fixpoint parse_all (ss : list string) : outcome (list datetime) :=
  match ss with
  | [] => Return []
  | s :: rest =>
      match parse_iso s with
      | Some t => ts <- parse_all rest ;; Return (t :: ts)
      | None =>
          Raise (mkExn "ValueError" ("Unknown datetime string format: " ++ s)%string)
      end
  end.

(** A stand-in for [pandas.to_datetime] that accepts datetimes and strings
    in that one format, and nothing else. *)
Definition to_datetime_iso (c : Column) : outcome (list datetime) :=
  match c with
  | DateCol ds => Return ds
  | ObjCol ss => parse_all ss
  | FloatCol _ | IntCol _ =>
      Raise (mkExn "ValueError" "numeric timestamps are not read here")
  end.

(** A table with two timestamp-like columns, [Date] first. *)
Definition stamped_table : DataFrame :=
  {| index := RangeIndex 2;
     columns := [ ("Date", ObjCol ["2024-01-01 00:00:00"; "2024-01-01 00:00:00"]);
                  ("Timestamp", ObjCol ["2024-01-01 06:00:00"; "2024-01-01 12:00:00"]);
                  ("GHI", FloatCol [45; 250]) ] |}.

(** The same measurements with no timestamp-like column at all. *)
Definition unstamped_table : DataFrame :=
  {| index := RangeIndex 3; columns := [("GHI", FloatCol [45; 250; 30])] |}.

(** A table with an integer [Hour] column: two readings at 6 h and one at
    12 h. *)
Definition hourly_table : DataFrame :=
  {| index := RangeIndex 3;
     columns := [ ("GHI", FloatCol [40; 250; 60]);
                  ("Hour", IntCol [6; 12; 6]%Z) ] |}.

(** ** Contracts in the words of the specification *)

(** The weather raw score in the words of its contract: 100 without a
    humidity column, otherwise 100 less half the percentage of rows above
    85, and never below 0. *)
Definition weather_contract (rh : option (list R)) : R :=
  match rh with
  | None => 100
  | Some xs =>
      Rmax (100 - 0.5 * (INR (count_true (gt_series xs (Fin 85)))
                         / INR (length xs) * 100)) 0
  end.

(** * Properties *)

(** ** Unfolding the scorer *)

Lemma bind_Return {A B : Type} (a : A) (k : A -> outcome B) :
  bind (Return a) k = k a.
Proof. reflexivity. Qed.

Lemma has_column_get_column (name : string) (df : DataFrame) :
  has_column name df = true <-> exists c, get_column name df = Some c.
Proof.
  unfold has_column, get_column.
  induction (columns df) as [|[k c] t IH]; simpl.
  - split; [discriminate | intros [c H0]; discriminate].
  - destruct (String.eqb name k); simpl.
    + split; [intros _; now exists c | reflexivity].
    + exact IH.
Qed.

Lemma series_has_column (name : string) (df : DataFrame) (xs : list R) :
  series name df = Return xs -> has_column name df = true.
Proof.
  unfold series. intros H. apply has_column_get_column.
  destruct (get_column name df) as [c|]; [now exists c | discriminate].
Qed.

Lemma create_solar_score_varying (df : DataFrame) (ghi : list R) (weather : num) :
  series "GHI" df = Return ghi ->
  weather_score df = Return weather ->
  ngt (std ghi) (Fin 0) = true ->
  create_solar_score df = Return (Some (assembled ghi weather)).
Proof.
  intros Hg Hw Hs. unfold create_solar_score.
  rewrite (series_has_column _ _ _ Hg), Hg, Hw. simpl negb. cbv iota.
  unfold bind. rewrite Hs. reflexivity.
Qed.

Lemma create_solar_score_flat (df : DataFrame) (ghi : list R) (weather : num) :
  series "GHI" df = Return ghi ->
  weather_score df = Return weather ->
  ngt (std ghi) (Fin 0) = false ->
  create_solar_score df = Raise (KeyError "consistency").
Proof.
  intros Hg Hw Hs. unfold create_solar_score.
  rewrite (series_has_column _ _ _ Hg), Hg, Hw. simpl negb. cbv iota.
  unfold bind. rewrite Hs. reflexivity.
Qed.

(** A returned record pins down how the scorer ran. *)
Lemma create_solar_score_inv (df : DataFrame) (rec : ScoreRecord) :
  create_solar_score df = Return (Some rec) ->
  exists ghi weather,
    series "GHI" df = Return ghi /\
    weather_score df = Return weather /\
    ngt (std ghi) (Fin 0) = true /\
    rec = assembled ghi weather.
Proof.
  intros H.
  destruct (has_column "GHI" df) eqn:Hc.
  2:{ unfold create_solar_score in H. rewrite Hc in H. discriminate. }
  destruct (series "GHI" df) as [ghi|e] eqn:Hg.
  2:{ unfold create_solar_score in H. rewrite Hc, Hg in H. discriminate. }
  destruct (weather_score df) as [weather|e] eqn:Hw.
  2:{ unfold create_solar_score in H. rewrite Hc, Hg, Hw in H.
      simpl in H. discriminate. }
  destruct (ngt (std ghi) (Fin 0)) eqn:Hs.
  - rewrite (create_solar_score_varying df ghi weather Hg Hw Hs) in H.
    exists ghi, weather. repeat split; try assumption. congruence.
  - rewrite (create_solar_score_flat df ghi weather Hg Hw Hs) in H. discriminate.
Qed.

(** ** Comparisons and signs of reals *)

Lemma Rltb_true (x y : R) : x < y -> Rltb x y = true.
Proof. intros H. unfold Rltb. destruct (Rlt_dec x y); [reflexivity | contradiction]. Qed.

Lemma Rltb_false (x y : R) : y <= x -> Rltb x y = false.
Proof. intros H. unfold Rltb. destruct (Rlt_dec x y); [lra | reflexivity]. Qed.

Lemma Rltb_true_inv (x y : R) : Rltb x y = true -> x < y.
Proof. unfold Rltb. destruct (Rlt_dec x y); [trivial | discriminate]. Qed.

Lemma Rltb_false_inv (x y : R) : Rltb x y = false -> y <= x.
Proof. unfold Rltb. destruct (Rlt_dec x y); [discriminate | lra]. Qed.

Lemma Rsign_pos (r : R) : 0 < r -> Rsign r = Gt.
Proof. intros H. unfold Rsign. destruct (Rlt_dec 0 r); [reflexivity | contradiction]. Qed.

Lemma Rsign_neg (r : R) : r < 0 -> Rsign r = Lt.
Proof.
  intros H. unfold Rsign.
  destruct (Rlt_dec 0 r); [lra|]. destruct (Rlt_dec r 0); [reflexivity | contradiction].
Qed.

Lemma Rsign_zero : Rsign 0 = Eq.
Proof.
  unfold Rsign. destruct (Rlt_dec 0 0); [lra | reflexivity].
Qed.

Lemma ndiv_Fin (x y : R) : y <> 0 -> ndiv (Fin x) (Fin y) = Fin (x / y).
Proof.
  intros H. unfold ndiv.
  destruct (Rtotal_order 0 y) as [Hy|[Hy|Hy]].
  - now rewrite (Rsign_pos y Hy).
  - congruence.
  - now rewrite (Rsign_neg y Hy).
Qed.

Lemma nadd_0_l (a : num) : nadd (Fin 0) a = a.
Proof. destruct a; simpl; try reflexivity. f_equal. lra. Qed.

Lemma py_max_Fin (x y : R) : py_max (Fin x) (Fin y) = Fin (Rmax x y).
Proof.
  unfold py_max, ngt, Rltb, Rmax.
  destruct (Rlt_dec x y), (Rle_dec x y); try reflexivity; try lra.
  f_equal. lra.
Qed.

(** ** Sums, sorting and counting *)

Lemma Rsum_nonneg (xs : list R) :
  (forall x, In x xs -> 0 <= x) -> 0 <= Rsum xs.
Proof.
  induction xs as [|a t IH]; simpl; intros H; [lra|].
  assert (0 <= a) by (apply H; now left).
  assert (0 <= Rsum t) by (apply IH; intros; apply H; now right). lra.
Qed.

Lemma Rsum_zero (xs : list R) :
  (forall x, In x xs -> 0 <= x) -> Rsum xs = 0 -> forall x, In x xs -> x = 0.
Proof.
  induction xs as [|a t IH]; simpl; intros H Hs x Hx; [contradiction|].
  assert (Ha : 0 <= a) by (apply H; now left).
  assert (Ht : 0 <= Rsum t) by (apply Rsum_nonneg; intros; apply H; now right).
  destruct Hx as [<-|Hx]; [lra|].
  apply IH; [intros; apply H; now right | lra | assumption].
Qed.

Lemma Rsum_bounds (xs : list R) (lo hi : R) :
  (forall x, In x xs -> lo <= x <= hi) ->
  lo * INR (length xs) <= Rsum xs <= hi * INR (length xs).
Proof.
  induction xs as [|a t IH]; intros H.
  - simpl. lra.
  - assert (Ha : lo <= a <= hi) by (apply H; now left).
    assert (Ht : lo * INR (length t) <= Rsum t <= hi * INR (length t))
      by (apply IH; intros; apply H; now right).
    change (length (a :: t)) with (S (length t)). rewrite S_INR.
    simpl Rsum. lra.
Qed.

Lemma In_insert (x y : R) (l : list R) : In y (insert x l) <-> y = x \/ In y l.
Proof.
  induction l as [|a t IH]; simpl.
  - intuition.
  - destruct (Rle_dec x a); simpl; rewrite ?IH; intuition.
Qed.

Lemma In_sort (y : R) (l : list R) : In y (sort l) <-> In y l.
Proof.
  induction l as [|a t IH]; simpl; [tauto|].
  rewrite In_insert, IH. intuition.
Qed.

Lemma length_insert (x : R) (l : list R) : length (insert x l) = S (length l).
Proof.
  induction l as [|a t IH]; simpl; [reflexivity|].
  destruct (Rle_dec x a); simpl; congruence.
Qed.

Lemma length_sort (l : list R) : length (sort l) = length l.
Proof.
  induction l as [|a t IH]; simpl; [reflexivity|].
  rewrite length_insert. congruence.
Qed.

Lemma exists_min (xs : list R) :
  xs <> [] -> exists m, In m xs /\ forall x, In x xs -> m <= x.
Proof.
  induction xs as [|a t IH]; intros H; [congruence|].
  destruct t as [|b t'].
  - exists a. split; [now left|]. intros x [<-|[]]. lra.
  - destruct IH as [m [Hm Hmin]]; [discriminate|].
    destruct (Rle_dec a m) as [Hle|Hgt].
    + exists a. split; [now left|].
      intros x [<-|Hx]; [lra|]. specialize (Hmin x Hx). lra.
    + exists m. split; [now right|].
      intros x [<-|Hx]; [lra|]. now apply Hmin.
Qed.

Lemma count_true_le (bs : list bool) : (count_true bs <= length bs)%nat.
Proof. unfold count_true. apply filter_length_le. Qed.

(** A series with a value that does not exceed the threshold has at least
    one [False] in the comparison. *)
Lemma count_gt_lt (xs : list R) (t m : R) :
  In m xs -> m <= t ->
  (count_true (gt_series xs (Fin t)) < length xs)%nat.
Proof.
  unfold count_true, gt_series.
  induction xs as [|a l IH]; intros Hin Hle; [contradiction|].
  simpl map. simpl filter. simpl ngt.
  destruct Hin as [<-|Hin].
  - rewrite (Rltb_false t a Hle). simpl.
    pose proof (filter_length_le (fun b : bool => b)
                  (map (fun x => Rltb t x) l)) as Hl.
    rewrite length_map in Hl. lia.
  - specialize (IH Hin Hle). simpl ngt in IH.
    destruct (Rltb t a); simpl; lia.
Qed.

Lemma count_gt_zero (xs : list R) (t : R) :
  (forall x, In x xs -> x <= t) -> count_true (gt_series xs (Fin t)) = 0%nat.
Proof.
  unfold count_true, gt_series.
  induction xs as [|a l IH]; intros H; [reflexivity|].
  simpl. rewrite (Rltb_false t a) by (apply H; now left).
  apply IH. intros; apply H; now right.
Qed.

(** ** Mean and standard deviation *)

Lemma INR_length_pos (xs : list R) : xs <> [] -> 0 < INR (length xs).
Proof.
  intros H. destruct xs as [|a t]; [congruence|].
  apply lt_0_INR. simpl. lia.
Qed.

Lemma mean_Fin (xs : list R) :
  xs <> [] -> mean xs = Fin (Rsum xs / INR (length xs)).
Proof. destruct xs; [congruence | reflexivity]. Qed.

Lemma Rsum_const (xs : list R) (v : R) :
  (forall x, In x xs -> x = v) -> Rsum xs = v * INR (length xs).
Proof.
  intros H.
  assert (B : v * INR (length xs) <= Rsum xs <= v * INR (length xs)).
  { apply Rsum_bounds. intros x Hx. rewrite (H x Hx). lra. }
  lra.
Qed.

Lemma mean_const (xs : list R) (v : R) :
  xs <> [] -> (forall x, In x xs -> x = v) -> mean xs = Fin v.
Proof.
  intros Hne H. rewrite (mean_Fin xs Hne), (Rsum_const xs v H).
  f_equal. pose proof (INR_length_pos xs Hne). field. lra.
Qed.

Lemma mean_bounds (xs : list R) (lo hi : R) :
  xs <> [] -> (forall x, In x xs -> lo <= x <= hi) ->
  exists m, mean xs = Fin m /\ lo <= m <= hi.
Proof.
  intros Hne H. exists (Rsum xs / INR (length xs)).
  split; [now apply mean_Fin|].
  pose proof (INR_length_pos xs Hne) as Hn.
  pose proof (Rsum_bounds xs lo hi H) as [Hl Hh].
  split.
  - apply Rmult_le_reg_r with (INR (length xs)); [assumption|].
    unfold Rdiv. rewrite Rmult_assoc, Rinv_l by lra. lra.
  - apply Rmult_le_reg_r with (INR (length xs)); [assumption|].
    unfold Rdiv. rewrite Rmult_assoc, Rinv_l by lra. lra.
Qed.

Lemma sq_dev_nonneg (xs : list R) : 0 <= sq_dev xs.
Proof.
  unfold sq_dev. cbv zeta. apply Rsum_nonneg. intros y Hy.
  apply in_map_iff in Hy. destruct Hy as [x [<- _]].
  apply Rle_0_sqr.
Qed.

Lemma sq_dev_const (xs : list R) (v : R) :
  xs <> [] -> (forall x, In x xs -> x = v) -> sq_dev xs = 0.
Proof.
  intros Hne H. unfold sq_dev. cbv zeta.
  assert (Havg : Rsum xs / INR (length xs) = v).
  { pose proof (mean_const xs v Hne H) as Hm.
    rewrite (mean_Fin xs Hne) in Hm. congruence. }
  rewrite Havg.
  assert (B : 0 * INR (length (map (fun x => (v - x) * (v - x)) xs))
              <= Rsum (map (fun x => (v - x) * (v - x)) xs)
              <= 0 * INR (length (map (fun x => (v - x) * (v - x)) xs))).
  { apply Rsum_bounds. intros y Hy.
    apply in_map_iff in Hy. destruct Hy as [x [<- Hx]].
    rewrite (H x Hx). lra. }
  lra.
Qed.

(** A positive standard deviation needs two rows and a positive sum of
    squared deviations. *)
Lemma std_pos_inv (xs : list R) :
  ngt (std xs) (Fin 0) = true ->
  (2 <= length xs)%nat /\
  exists s, std xs = Fin s /\ 0 < s /\ 0 < sq_dev xs.
Proof.
  unfold std, var.
  destruct (Nat.leb_spec (length xs) 1) as [Hn|Hn]; simpl; [discriminate|].
  destruct (Rlt_dec (sq_dev xs / INR (length xs - 1)) 0) as [Hneg|Hnn];
    simpl; [discriminate|].
  intros Hs. apply Rltb_true_inv in Hs.
  split; [lia|].
  exists (sqrt (sq_dev xs / INR (length xs - 1))).
  repeat split; try assumption.
  assert (Hd : 0 < INR (length xs - 1)) by (apply lt_0_INR; lia).
  destruct (Rle_lt_or_eq_dec 0 (sq_dev xs) (sq_dev_nonneg xs)) as [Hp|Hz];
    [assumption|].
  rewrite <- Hz in Hs. unfold Rdiv in Hs. rewrite Rmult_0_l, sqrt_0 in Hs. lra.
Qed.

Lemma std_const (xs : list R) (v : R) :
  (forall x, In x xs -> x = v) -> ngt (std xs) (Fin 0) = false.
Proof.
  intros H. destruct (ngt (std xs) (Fin 0)) eqn:Hs; [|reflexivity].
  apply std_pos_inv in Hs. destruct Hs as [Hn [s [_ [_ Hp]]]].
  rewrite (sq_dev_const xs v) in Hp; [lra | | assumption].
  intros ->. simpl in Hn. lia.
Qed.

(** With no negative value, a positive standard deviation forces a positive
    mean. *)
Lemma mean_pos (xs : list R) :
  (forall x, In x xs -> 0 <= x) ->
  ngt (std xs) (Fin 0) = true ->
  exists m, mean xs = Fin m /\ 0 < m.
Proof.
  intros Hnn Hs.
  assert (Hne : xs <> []).
  { intros ->. apply std_pos_inv in Hs. simpl in Hs. lia. }
  exists (Rsum xs / INR (length xs)). split; [now apply mean_Fin|].
  pose proof (INR_length_pos xs Hne) as Hn.
  pose proof (Rsum_nonneg xs Hnn) as Hsum.
  destruct (Rle_lt_or_eq_dec 0 (Rsum xs) Hsum) as [Hp|Hz].
  - apply Rdiv_lt_0_compat; assumption.
  - exfalso.
    assert (Hc : forall x, In x xs -> x = 0)
      by (apply Rsum_zero; [assumption | now symmetry]).
    rewrite (std_const xs 0 Hc) in Hs. discriminate.
Qed.

(** ** Quantiles *)

Lemma quantile_index (n p q : nat) :
  (0 < q)%nat -> (p <= q)%nat -> ((n - 1) * p / q <= n - 1)%nat.
Proof.
  intros Hq Hp. apply Nat.Div0.div_le_upper_bound. nia.
Qed.

Lemma quantile_fraction (a q : nat) :
  (0 < q)%nat -> 0 <= INR (a mod q) / INR q < 1.
Proof.
  intros Hq.
  assert (Hq' : 0 < INR q) by (now apply lt_0_INR).
  assert (Hm : INR (a mod q) < INR q)
    by (apply lt_INR, Nat.mod_upper_bound; lia).
  pose proof (pos_INR (a mod q)) as H0.
  split.
  - apply Rmult_le_reg_r with (INR q); [assumption|].
    unfold Rdiv. rewrite Rmult_assoc, Rinv_l by lra. lra.
  - apply Rmult_lt_reg_r with (INR q); [assumption|].
    unfold Rdiv. rewrite Rmult_assoc, Rinv_l by lra. lra.
Qed.

(** A quantile lies between any two bounds of the values. *)
Lemma quantile_between (xs : list R) (p q : nat) (lo hi : R) :
  xs <> [] -> (0 < q)%nat -> (p <= q)%nat ->
  (forall x, In x xs -> lo <= x <= hi) ->
  exists t, quantile xs p q = Fin t /\ lo <= t <= hi.
Proof.
  intros Hne Hq Hp Hb.
  destruct xs as [|a l]; [congruence|]. unfold quantile.
  set (xs := a :: l) in *. set (n := length xs).
  set (i := ((n - 1) * p / q)%nat). set (j := Nat.min (i + 1) (n - 1)).
  set (g := INR (((n - 1) * p) mod q) / INR q).
  assert (Hn : (0 < n)%nat) by (unfold n, xs; simpl; lia).
  assert (Hi : (i < length (sort xs))%nat).
  { rewrite length_sort. fold n.
    pose proof (quantile_index n p q Hq Hp). unfold i. lia. }
  assert (Hj : (j < length (sort xs))%nat).
  { rewrite length_sort. fold n. unfold j. lia. }
  assert (Bi : lo <= nth i (sort xs) 0 <= hi)
    by (apply Hb, In_sort, nth_In, Hi).
  assert (Bj : lo <= nth j (sort xs) 0 <= hi)
    by (apply Hb, In_sort, nth_In, Hj).
  assert (Hg : 0 <= g < 1) by (apply quantile_fraction, Hq).
  eexists. split; [reflexivity|]. cbv zeta. nra.
Qed.

Lemma quantile_const (xs : list R) (p q : nat) (v : R) :
  xs <> [] -> (0 < q)%nat -> (p <= q)%nat ->
  (forall x, In x xs -> x = v) -> quantile xs p q = Fin v.
Proof.
  intros Hne Hq Hp Hc.
  destruct (quantile_between xs p q v v Hne Hq Hp) as [t [Ht Hb]].
  - intros x Hx. rewrite (Hc x Hx). lra.
  - rewrite Ht. f_equal. lra.
Qed.

(** ** Fractions of a boolean series *)

Lemma bool_mean_Fin (bs : list bool) :
  bs <> [] -> bool_mean bs = Fin (INR (count_true bs) / INR (length bs)).
Proof. destruct bs; [congruence | reflexivity]. Qed.

Lemma fraction_bounds (k n : nat) :
  (k <= n)%nat -> (0 < n)%nat -> 0 <= INR k / INR n <= 1.
Proof.
  intros Hk Hn.
  assert (Hn' : 0 < INR n) by (now apply lt_0_INR).
  pose proof (pos_INR k) as H0. pose proof (le_INR k n Hk) as H1.
  split.
  - apply Rmult_le_reg_r with (INR n); [assumption|].
    unfold Rdiv. rewrite Rmult_assoc, Rinv_l by lra. lra.
  - apply Rmult_le_reg_r with (INR n); [assumption|].
    unfold Rdiv. rewrite Rmult_assoc, Rinv_l by lra. lra.
Qed.

Lemma gt_series_length (xs : list R) (t : num) :
  length (gt_series xs t) = length xs.
Proof. apply length_map. Qed.

Lemma gt_series_nonempty (xs : list R) (t : num) :
  xs <> [] -> gt_series xs t <> [].
Proof. destruct xs; [congruence | discriminate]. Qed.

(** The percentage of values above a finite threshold. *)
Lemma percentage_above (xs : list R) (t : R) :
  xs <> [] ->
  nmul (bool_mean (gt_series xs (Fin t))) (Fin 100)
  = Fin (INR (count_true (gt_series xs (Fin t))) / INR (length xs) * 100).
Proof.
  intros Hne. rewrite bool_mean_Fin by now apply gt_series_nonempty.
  rewrite gt_series_length. reflexivity.
Qed.

Lemma exists_max (xs : list R) :
  xs <> [] -> exists m, In m xs /\ forall x, In x xs -> x <= m.
Proof.
  induction xs as [|a t IH]; intros H; [congruence|].
  destruct t as [|b t'].
  - exists a. split; [now left|]. intros x [<-|[]]. lra.
  - destruct IH as [m [Hm Hmax]]; [discriminate|].
    destruct (Rle_dec m a) as [Hle|Hgt].
    + exists a. split; [now left|].
      intros x [<-|Hx]; [lra|]. specialize (Hmax x Hx). lra.
    + exists m. split; [now right|].
      intros x [<-|Hx]; [lra|]. now apply Hmax.
Qed.

(** ** The four raw scores and their weighted forms *)

Lemma energy_weighted_Fin (ghi : list R) (m : R) :
  mean ghi = Fin m -> energy_weighted ghi = Fin (m / Rmax m 500 * 40).
Proof.
  intros Hm. unfold energy_weighted, max_energy, energy_score.
  rewrite Hm, py_max_Fin, ndiv_Fin; [reflexivity|].
  pose proof (Rmax_r m 500). lra.
Qed.

Lemma raw_consistency_Fin (ghi : list R) (s m : R) :
  std ghi = Fin s -> 0 < s -> mean ghi = Fin m ->
  exists c, py_max (consistency ghi) (Fin 0) = Fin c /\ 0 <= c /\
            (m = 0 -> c = 0) /\
            (m <> 0 -> c = Rmax ((1 - s / m) * 100) 0).
Proof.
  intros Hs Hpos Hm. unfold consistency. rewrite Hs, Hm.
  destruct (Req_dec_T m 0) as [->|Hne].
  - exists 0. unfold ndiv. rewrite Rsign_zero. unfold inf_scaled.
    rewrite (Rsign_pos s Hpos). simpl nsub. simpl nmul.
    unfold inf_scaled. rewrite (Rsign_pos 100) by lra.
    unfold py_max. simpl. repeat split; [lra | congruence].
  - exists (Rmax ((1 - s / m) * 100) 0).
    rewrite (ndiv_Fin s m Hne). simpl nsub. simpl nmul.
    rewrite py_max_Fin. repeat split; [apply Rmax_r | congruence].
Qed.

(** The reliability percentage counts the rows above the threshold, and
    the threshold is a value between the least and the greatest row. *)
Lemma reliability_Fin (ghi : list R) :
  ghi <> [] ->
  exists t k,
    optimal_threshold ghi = Fin t /\
    k = count_true (gt_series ghi (Fin t)) /\
    (k < length ghi)%nat /\
    reliability ghi = Fin (INR k / INR (length ghi) * 100).
Proof.
  intros Hne.
  destruct (exists_min ghi Hne) as [lo [Hlo Hmin]].
  destruct (exists_max ghi Hne) as [hi [_ Hmax]].
  destruct (quantile_between ghi 7 10 lo hi Hne) as [t [Ht Hb]];
    [lia | lia | intros x Hx; split; [now apply Hmin | now apply Hmax] |].
  exists t, (count_true (gt_series ghi (Fin t))).
  unfold reliability, optimal_threshold. rewrite Ht.
  repeat split.
  - apply (count_gt_lt ghi t lo Hlo). lra.
  - now apply percentage_above.
Qed.

Lemma percentage_bounds (k n : nat) :
  (k <= n)%nat -> (0 < n)%nat -> 0 <= INR k / INR n * 100 <= 100.
Proof.
  intros Hk Hn. pose proof (fraction_bounds k n Hk Hn). lra.
Qed.

(** ** Rectangular tables *)

Lemma get_column_In (name : string) (df : DataFrame) (c : Column) :
  get_column name df = Some c -> In (name, c) (columns df).
Proof.
  unfold get_column.
  destruct (find _ (columns df)) as [[k c']|] eqn:Hf; [|discriminate].
  intros H. injection H as <-.
  apply find_some in Hf. destruct Hf as [Hin Heq].
  simpl in Heq. apply String.eqb_eq in Heq. now subst k.
Qed.

Lemma numeric_length (name : string) (c : Column) (xs : list R) :
  numeric name c = Return xs -> length xs = column_length c.
Proof.
  destruct c; simpl; intros H; try discriminate; injection H as <-;
    [reflexivity | apply length_map].
Qed.

Lemma series_length (name : string) (df : DataFrame) (xs : list R) :
  rectangular df -> series name df = Return xs -> length xs = len df.
Proof.
  intros Hr. unfold series.
  destruct (get_column name df) as [c|] eqn:Hc; [|discriminate].
  intros H. rewrite (numeric_length name c xs H).
  apply (Hr name c). now apply get_column_In.
Qed.

(** ** Weather *)

Lemma weather_raw_Fin (df : DataFrame) (weather : num) :
  weather_score df = Return weather ->
  (forall rh, series "RH" df = Return rh -> rh <> []) ->
  exists rh : option (list R),
    py_max weather (Fin 0) = Fin (weather_contract rh) /\
    0 <= weather_contract rh <= 100 /\
    match rh with
    | None => has_column "RH" df = false
    | Some xs => has_column "RH" df = true /\ series "RH" df = Return xs
    end.
Proof.
  unfold weather_score. intros Hw Hne.
  destruct (has_column "RH" df) eqn:Hc.
  - destruct (series "RH" df) as [rh|e] eqn:Hs; simpl in Hw; [|discriminate].
    injection Hw as <-. specialize (Hne rh eq_refl).
    exists (Some rh). unfold high_humidity. rewrite (percentage_above rh 85 Hne).
    cbn [nmul nsub]. rewrite py_max_Fin.
    assert (Hk : 0 <= INR (count_true (gt_series rh (Fin 85)))
                      / INR (length rh) * 100 <= 100).
    { apply percentage_bounds.
      - rewrite <- (gt_series_length rh (Fin 85)). apply count_true_le.
      - destruct rh; [congruence | simpl; lia]. }
    unfold weather_contract. repeat split.
    + f_equal. f_equal. lra.
    + apply Rmax_r.
    + apply Rmax_lub; lra.
  - injection Hw as <-. exists None. rewrite py_max_Fin.
    unfold weather_contract. repeat split; try lra.
    f_equal. apply Rmax_left. lra.
Qed.

(** ** What a returned record holds *)

(** Whenever the scorer returns a record for a rectangular table, every
    entry of the record is a finite number, given here in closed form:
    [m] and [s] are the mean and the standard deviation of the GHI column,
    [c] the raw consistency, [k] the number of rows above the threshold [t],
    and [rh] the humidity column when there is one. *)
Lemma score_values (df : DataFrame) (rec : ScoreRecord) :
  rectangular df ->
  create_solar_score df = Return (Some rec) ->
  exists (ghi : list R) (m s c t : R) (k : nat) (rh : option (list R)),
    series "GHI" df = Return ghi /\ (2 <= length ghi)%nat /\
    mean ghi = Fin m /\ std ghi = Fin s /\ 0 < s /\
    (0 <= c /\ (m = 0 -> c = 0) /\ (m <> 0 -> c = Rmax ((1 - s / m) * 100) 0)) /\
    (optimal_threshold ghi = Fin t /\
     k = count_true (gt_series ghi (Fin t)) /\ (k < length ghi)%nat) /\
    (0 <= weather_contract rh <= 100 /\
     match rh with
     | None => has_column "RH" df = false
     | Some xs => has_column "RH" df = true /\ series "RH" df = Return xs
     end) /\
    raw_scores rec =
      [ ("energy", Fin m); ("consistency", Fin c);
        ("reliability", Fin (INR k / INR (length ghi) * 100));
        ("weather", Fin (weather_contract rh)) ] /\
    components rec =
      [ ("energy", Fin (m / Rmax m 500 * 40));
        ("consistency", Fin (c / 100 * 30));
        ("reliability", Fin (INR k / INR (length ghi) * 100 / 100 * 20));
        ("weather", Fin (weather_contract rh / 100 * 10)) ] /\
    total_score rec =
      Fin (0 + m / Rmax m 500 * 40 + c / 100 * 30
           + INR k / INR (length ghi) * 100 / 100 * 20
           + weather_contract rh / 100 * 10).
Proof.
  intros Hrect H.
  destruct (create_solar_score_inv df rec H) as [ghi [weather [Hg [Hw [Hs ->]]]]].
  destruct (std_pos_inv ghi Hs) as [Hn [s [Hstd [Hpos _]]]].
  assert (Hne : ghi <> []) by (intros ->; simpl in Hn; lia).
  pose proof (mean_Fin ghi Hne) as Hm.
  set (m := Rsum ghi / INR (length ghi)) in Hm.
  destruct (raw_consistency_Fin ghi s m Hstd Hpos Hm) as [c [Hc Hcb]].
  destruct (reliability_Fin ghi Hne) as [t [k [Ht [Hk [Hlt Hr]]]]].
  destruct (weather_raw_Fin df weather Hw) as [rh [Hwr [Hwb Hrh]]].
  { intros rh Hrh ->. apply (series_length _ _ _ Hrect) in Hrh.
    apply (series_length _ _ _ Hrect) in Hg. simpl in Hrh. lia. }
  exists ghi, m, s, c, t, k, rh.
  unfold assembled. cbv zeta. cbn [raw_scores components total_score].
  unfold energy_score.
  rewrite (energy_weighted_Fin ghi m Hm), Hc, Hr, Hwr, Hm.
  rewrite !ndiv_Fin by lra. cbn [nmul values map snd py_sum fold_left nadd].
  repeat split; try assumption; try tauto.
Qed.

(** ** When the standard deviation is positive *)

Lemma sq_dev_pos (xs : list R) (a b : R) :
  In a xs -> In b xs -> a <> b -> 0 < sq_dev xs.
Proof.
  intros Ha Hb Hab.
  destruct (Rle_lt_or_eq_dec 0 (sq_dev xs) (sq_dev_nonneg xs)) as [Hp|Hz];
    [assumption|exfalso].
  unfold sq_dev in Hz. cbv zeta in Hz.
  set (avg := Rsum xs / INR (length xs)) in Hz.
  assert (Hall : forall x, In x xs -> x = avg).
  { intros x Hx.
    assert (Hsq : (avg - x) * (avg - x) = 0).
    { apply (Rsum_zero (map (fun x => (avg - x) * (avg - x)) xs)).
      - intros y Hy. apply in_map_iff in Hy. destruct Hy as [z [<- _]].
        apply Rle_0_sqr.
      - now symmetry.
      - apply in_map_iff. now exists x. }
    apply Rmult_integral in Hsq. lra. }
  apply Hab. rewrite (Hall a Ha), (Hall b Hb). reflexivity.
Qed.

Lemma std_pos_intro (xs : list R) :
  (2 <= length xs)%nat -> 0 < sq_dev xs -> ngt (std xs) (Fin 0) = true.
Proof.
  intros Hn Hp. unfold std, var.
  destruct (Nat.leb_spec (length xs) 1) as [Hle|_]; [lia|].
  assert (Hd : 0 < INR (length xs - 1)) by (apply lt_0_INR; lia).
  assert (Hv : 0 < sq_dev xs / INR (length xs - 1))
    by (now apply Rdiv_lt_0_compat).
  unfold nsqrt. destruct (Rlt_dec _ 0) as [Hneg|_]; [lra|].
  simpl. apply Rltb_true. now apply sqrt_lt_R0.
Qed.

Lemma std_short (xs : list R) :
  (length xs <= 1)%nat -> ngt (std xs) (Fin 0) = false.
Proof.
  intros Hn. destruct (ngt (std xs) (Fin 0)) eqn:Hs; [|reflexivity].
  apply std_pos_inv in Hs. lia.
Qed.

(** With fewer than two rows the standard deviation is NaN, the test
    [std() > 0] is false, and the scorer ends the same way. *)
Lemma short_column_raises (df : DataFrame) (ghi : list R) (weather : num) :
  series "GHI" df = Return ghi ->
  weather_score df = Return weather ->
  (length ghi <= 1)%nat ->
  create_solar_score df = Raise (KeyError "consistency").
Proof.
  intros Hg Hw Hn. apply (create_solar_score_flat df ghi weather Hg Hw).
  now apply std_short.
Qed.

(** A numeric GHI column with no spread, whatever its length, ends the
    scorer on the read of the missing [consistency] key. *)
Lemma flat_column_raises (df : DataFrame) (ghi : list R) (weather : num) (v : R) :
  series "GHI" df = Return ghi ->
  weather_score df = Return weather ->
  (forall x, In x ghi -> x = v) ->
  create_solar_score df = Raise (KeyError "consistency").
Proof.
  intros Hg Hw Hc. apply (create_solar_score_flat df ghi weather Hg Hw).
  now apply (std_const ghi v).
Qed.

Lemma varying_table_rectangular : rectangular varying_table.
Proof.
  intros name c [H|[H|[]]]; injection H as _ <-; reflexivity.
Qed.

Lemma varying_table_std : ngt (std [100; 200; 300]) (Fin 0) = true.
Proof.
  apply std_pos_intro; [simpl; lia|].
  apply (sq_dev_pos _ 100 200); simpl; [tauto | tauto | lra].
Qed.

Lemma varying_table_scored :
  exists rec, create_solar_score varying_table = Return (Some rec).
Proof.
  eexists.
  apply (create_solar_score_varying varying_table [100; 200; 300]);
    [reflexivity | reflexivity | exact varying_table_std].
Qed.

(** * The scorer's claims *)

(** C2.  A table without a [GHI] column gets the null result: the scorer
    returns [None] normally, no exception is raised and nothing is
    computed. *)
Theorem no_ghi_no_score (df : DataFrame) :
  has_column "GHI" df = false -> create_solar_score df = Return None.
Proof.
  intros H. unfold create_solar_score. rewrite H. reflexivity.
Qed.

Lemma no_ghi_no_score_witness :
  has_column "GHI" humidity_only_table = false /\
  create_solar_score humidity_only_table = Return None.
Proof.
  split; [reflexivity | apply (no_ghi_no_score humidity_only_table); reflexivity].
Defined.

(** C1.  In every record the scorer returns, the four weighted components
    are finite numbers whose sum, taken in the order energy, consistency,
    reliability, weather, is the total score; the two sides differ by
    nothing, hence by less than 1e-9. *)
Theorem components_sum_to_total (df : DataFrame) (rec : ScoreRecord) :
  rectangular df ->
  create_solar_score df = Return (Some rec) ->
  exists e c r w t : R,
    dict_lookup "energy" (components rec) = Some (Fin e) /\
    dict_lookup "consistency" (components rec) = Some (Fin c) /\
    dict_lookup "reliability" (components rec) = Some (Fin r) /\
    dict_lookup "weather" (components rec) = Some (Fin w) /\
    total_score rec = Fin t /\
    e + c + r + w = t /\
    Rabs (e + c + r + w - t) <= 1 / 1000000000.
Proof.
  intros Hrect H.
  destruct (score_values df rec Hrect H)
    as (ghi & m & s & c & t & k & rh & _ & _ & _ & _ & _ & _ & _ & _ & _ & Hc & Ht).
  rewrite Hc, Ht. do 5 eexists.
  repeat (split; [reflexivity|]).
  split; [lra|].
  match goal with |- Rabs ?x <= _ => replace x with 0 by lra end.
  rewrite Rabs_R0. lra.
Qed.

Lemma components_sum_to_total_witness :
  exists rec,
    create_solar_score varying_table = Return (Some rec) /\
    exists e c r w t : R,
      dict_lookup "energy" (components rec) = Some (Fin e) /\
      dict_lookup "consistency" (components rec) = Some (Fin c) /\
      dict_lookup "reliability" (components rec) = Some (Fin r) /\
      dict_lookup "weather" (components rec) = Some (Fin w) /\
      total_score rec = Fin t /\
      e + c + r + w = t /\
      Rabs (e + c + r + w - t) <= 1 / 1000000000.
Proof.
  destruct varying_table_scored as [rec Hrec]. exists rec.
  split; [exact Hrec|].
  exact (components_sum_to_total varying_table rec varying_table_rectangular Hrec).
Defined.

(** C8.  In every record the scorer returns, the weather raw value is a
    number between 0 and 100.  It is 100 when there is no [RH] column and
    when no humidity value exceeds 85; with an [RH] column it is 100 less
    half the percentage of rows above 85, floored at 0. *)
Theorem weather_raw_range (df : DataFrame) (rec : ScoreRecord) :
  rectangular df ->
  create_solar_score df = Return (Some rec) ->
  exists w : R,
    dict_lookup "weather" (raw_scores rec) = Some (Fin w) /\
    0 <= w <= 100 /\
    (has_column "RH" df = false -> w = 100) /\
    (forall rh, series "RH" df = Return rh ->
                (forall x, In x rh -> x <= 85) -> w = 100) /\
    (forall rh, series "RH" df = Return rh ->
                w = Rmax (100 - 0.5 * (INR (count_true (gt_series rh (Fin 85)))
                                       / INR (length rh) * 100)) 0).
Proof.
  intros Hrect H.
  destruct (score_values df rec Hrect H)
    as (ghi & m & s & c & t & k & rh & _ & _ & _ & _ & _ & _ & _ & [Hwb Hrh] & Hraw & _).
  exists (weather_contract rh). rewrite Hraw.
  split; [reflexivity|]. split; [exact Hwb|].
  destruct rh as [xs|]; simpl in Hrh.
  - destruct Hrh as [Hhas Hser]. split; [|split].
    + intros Hno. congruence.
    + intros rh' Hrh' Hall.
      assert (rh' = xs) by congruence. subst rh'.
      unfold weather_contract. rewrite (count_gt_zero xs 85 Hall).
      simpl INR. unfold Rdiv at 1. rewrite Rmult_0_l.
      rewrite Rmax_left by lra. lra.
    + intros rh' Hrh'. assert (rh' = xs) by congruence. subst rh'. reflexivity.
  - split; [|split].
    + intros _. reflexivity.
    + intros rh' Hrh'. apply series_has_column in Hrh'. congruence.
    + intros rh' Hrh'. apply series_has_column in Hrh'. congruence.
Qed.

Lemma weather_raw_range_witness :
  exists rec,
    create_solar_score varying_table = Return (Some rec) /\
    exists w : R,
      dict_lookup "weather" (raw_scores rec) = Some (Fin w) /\
      0 <= w <= 100 /\
      (has_column "RH" varying_table = false -> w = 100) /\
      (forall rh, series "RH" varying_table = Return rh ->
                  (forall x, In x rh -> x <= 85) -> w = 100) /\
      (forall rh, series "RH" varying_table = Return rh ->
                  w = Rmax (100 - 0.5 * (INR (count_true (gt_series rh (Fin 85)))
                                         / INR (length rh) * 100)) 0).
Proof.
  destruct varying_table_scored as [rec Hrec]. exists rec.
  split; [exact Hrec|].
  exact (weather_raw_range varying_table rec varying_table_rectangular Hrec).
Defined.

Lemma ratio_le_1 (m M : R) : 0 < M -> m <= M -> m / M <= 1.
Proof.
  intros HM Hm. apply Rmult_le_reg_r with M; [assumption|].
  unfold Rdiv. rewrite Rmult_assoc, Rinv_l by lra. lra.
Qed.

Lemma ratio_nonneg (m M : R) : 0 < M -> 0 <= m -> 0 <= m / M.
Proof.
  intros HM Hm. apply Rmult_le_reg_r with M; [assumption|].
  unfold Rdiv. rewrite Rmult_assoc, Rinv_l by lra. lra.
Qed.

Lemma ratio_pos (s m : R) : 0 < s -> 0 < m -> 0 < s / m.
Proof. intros. now apply Rdiv_lt_0_compat. Qed.

(** The energy term never exceeds its weight, and is not negative when the
    mean is not. *)
Lemma energy_term_bounds (m : R) :
  m / Rmax m 500 * 40 <= 40 /\ (0 <= m -> 0 <= m / Rmax m 500 * 40).
Proof.
  assert (HM : 0 < Rmax m 500) by (pose proof (Rmax_r m 500); lra).
  pose proof (ratio_le_1 m (Rmax m 500) HM (Rmax_l m 500)) as H1.
  split; [lra|]. intros H0.
  pose proof (ratio_nonneg m (Rmax m 500) HM H0). lra.
Qed.

(** With a positive mean the raw consistency stays strictly below 100. *)
Lemma consistency_term_bounds (s m c : R) :
  0 < s -> 0 <= m ->
  (m = 0 -> c = 0) -> (m <> 0 -> c = Rmax ((1 - s / m) * 100) 0) ->
  0 <= c < 100.
Proof.
  intros Hs Hm H0 Hne.
  destruct (Req_dec_T m 0) as [Hz|Hnz].
  - rewrite (H0 Hz). lra.
  - rewrite (Hne Hnz).
    assert (Hr : 0 < s / m) by (apply ratio_pos; lra).
    split; [apply Rmax_r|]. apply Rmax_lub_lt; lra.
Qed.

Lemma reliability_term_bounds (k n : nat) :
  (k < n)%nat ->
  0 <= INR k / INR n * 100 /\
  INR k / INR n * 100 <= 100 * (INR n - 1) / INR n /\
  INR k / INR n * 100 < 100.
Proof.
  intros Hk.
  assert (Hn : 0 < INR n) by (apply lt_0_INR; lia).
  assert (Hk' : INR k <= INR n - 1).
  { replace (INR n - 1) with (INR (n - 1)); [apply le_INR; lia|].
    rewrite minus_INR by lia. simpl. reflexivity. }
  pose proof (pos_INR k) as H0.
  assert (Hinv : 0 < / INR n) by (now apply Rinv_0_lt_compat).
  assert (Hone : INR n * / INR n = 1) by (apply Rinv_r; lra).
  unfold Rdiv. repeat split; nra.
Qed.

(** C9.  On a table whose GHI values are all non-negative and whose GHI
    standard deviation is positive, the scorer returns a record, and each
    weighted component in it is non-negative and at most its weight: 40 for
    energy, 30 for consistency, 20 for reliability, 10 for weather. *)
Theorem weighted_components_bounded
  (df : DataFrame) (ghi : list R) (weather : num) :
  rectangular df ->
  series "GHI" df = Return ghi ->
  weather_score df = Return weather ->
  (forall x, In x ghi -> 0 <= x) ->
  ngt (std ghi) (Fin 0) = true ->
  exists (rec : ScoreRecord) (e c r w : R),
    create_solar_score df = Return (Some rec) /\
    dict_lookup "energy" (components rec) = Some (Fin e) /\
    dict_lookup "consistency" (components rec) = Some (Fin c) /\
    dict_lookup "reliability" (components rec) = Some (Fin r) /\
    dict_lookup "weather" (components rec) = Some (Fin w) /\
    0 <= e <= 40 /\ 0 <= c <= 30 /\ 0 <= r <= 20 /\ 0 <= w <= 10.
Proof.
  intros Hrect Hg Hw Hnn Hs.
  pose proof (create_solar_score_varying df ghi weather Hg Hw Hs) as Hrec.
  destruct (score_values df _ Hrect Hrec)
    as (ghi' & m & s & c & t & k & rh & Hg' & _ & Hm & _ & Hpos & Hc & Hk & Hwb & _ & Hcomp & _).
  assert (ghi' = ghi) by congruence. subst ghi'.
  destruct (mean_pos ghi Hnn Hs) as [m' [Hm' Hmp]].
  assert (m' = m) by congruence. subst m'.
  destruct Hc as (_ & Hc0 & Hcne).
  pose proof (consistency_term_bounds s m c Hpos (Rlt_le _ _ Hmp) Hc0 Hcne) as Hcb.
  destruct Hk as (_ & _ & Hlt).
  pose proof (reliability_term_bounds k (length ghi) Hlt) as (Hr0 & _ & Hr1).
  pose proof (energy_term_bounds m) as [He1 He0].
  specialize (He0 (Rlt_le _ _ Hmp)).
  destruct Hwb as [Hwb _].
  exists (assembled ghi weather). rewrite Hcomp. do 4 eexists.
  split; [exact Hrec|].
  repeat (split; [reflexivity|]).
  repeat split; lra.
Qed.

Lemma weighted_components_bounded_witness :
  exists (rec : ScoreRecord) (e c r w : R),
    create_solar_score varying_table = Return (Some rec) /\
    dict_lookup "energy" (components rec) = Some (Fin e) /\
    dict_lookup "consistency" (components rec) = Some (Fin c) /\
    dict_lookup "reliability" (components rec) = Some (Fin r) /\
    dict_lookup "weather" (components rec) = Some (Fin w) /\
    0 <= e <= 40 /\ 0 <= c <= 30 /\ 0 <= r <= 20 /\ 0 <= w <= 10.
Proof.
  apply (weighted_components_bounded varying_table [100; 200; 300]
           (nsub (Fin 100) (nmul (high_humidity [50; 90; 60]) (Fin 0.5)))).
  - exact varying_table_rectangular.
  - reflexivity.
  - reflexivity.
  - simpl. intros x H. intuition lra.
  - exact varying_table_std.
Defined.

(** C10, as the code has it.  On a non-empty numeric GHI column of [n]
    rows the reliability raw score is at most 100 (n-1)/n, hence strictly
    below 100, because a row attaining the least value never exceeds the
    70th percentile.  In every record returned the weighted reliability is
    therefore strictly below 20, and the total is strictly below 100
    whenever the GHI mean is not negative. *)
Theorem reliability_below_full (df : DataFrame) (ghi : list R) :
  series "GHI" df = Return ghi ->
  ghi <> [] ->
  exists r : R,
    reliability ghi = Fin r /\
    0 <= r /\
    r <= 100 * (INR (length ghi) - 1) / INR (length ghi) /\
    r < 100 /\
    forall rec,
      rectangular df ->
      create_solar_score df = Return (Some rec) ->
      dict_lookup "reliability" (raw_scores rec) = Some (Fin r) /\
      exists rw t : R,
        dict_lookup "reliability" (components rec) = Some (Fin rw) /\
        rw < 20 /\
        total_score rec = Fin t /\
        (forall m, mean ghi = Fin m -> 0 <= m -> t < 100).
Proof.
  intros Hg Hne.
  destruct (reliability_Fin ghi Hne) as (t & k & Ht & Hk & Hlt & Hr).
  pose proof (reliability_term_bounds k (length ghi) Hlt) as (Hr0 & Hr1 & Hr2).
  exists (INR k / INR (length ghi) * 100).
  repeat (split; [assumption|]).
  intros rec Hrect Hrec.
  destruct (score_values df rec Hrect Hrec)
    as (ghi' & m & s & c & t' & k' & rh & Hg' & _ & Hm & _ & Hpos
        & (_ & Hc0 & Hcne) & (Ht' & Hk' & _) & (Hwb & _) & Hraw & Hcomp & Htot).
  assert (ghi' = ghi) by congruence. subst ghi'.
  assert (t' = t) by congruence. subst t'.
  rewrite <- Hk in Hk'. subst k'.
  rewrite Hraw, Hcomp, Htot.
  split; [reflexivity|]. do 2 eexists.
  split; [reflexivity|]. split; [lra|]. split; [reflexivity|].
  intros m' Hm' Hm0. assert (m' = m) by congruence. subst m'.
  pose proof (consistency_term_bounds s m c Hpos Hm0 Hc0 Hcne) as Hcb.
  pose proof (energy_term_bounds m) as [He1 _].
  lra.
Qed.

Lemma reliability_below_full_witness :
  series "GHI" varying_table = Return [100; 200; 300] /\
  [100; 200; 300] <> [] /\
  exists r : R,
    reliability [100; 200; 300] = Fin r /\
    0 <= r /\
    r <= 100 * (INR (length [100; 200; 300]) - 1) / INR (length [100; 200; 300]) /\
    r < 100 /\
    forall rec,
      rectangular varying_table ->
      create_solar_score varying_table = Return (Some rec) ->
      dict_lookup "reliability" (raw_scores rec) = Some (Fin r) /\
      exists rw t : R,
        dict_lookup "reliability" (components rec) = Some (Fin rw) /\
        rw < 20 /\
        total_score rec = Fin t /\
        (forall m, mean [100; 200; 300] = Fin m -> 0 <= m -> t < 100).
Proof.
  split; [reflexivity|]. split; [discriminate|].
  apply (reliability_below_full varying_table [100; 200; 300]);
    [reflexivity | discriminate].
Defined.

Lemma negative_table_mean : mean [-11; -1; 9] = Fin (-1).
Proof. unfold mean, Rsum. simpl. f_equal. lra. Qed.

Lemma negative_table_std : std [-11; -1; 9] = Fin 10.
Proof.
  unfold std, var. simpl Nat.leb. cbv iota.
  assert (Hv : sq_dev [-11; -1; 9] / INR (length [-11; -1; 9] - 1) = 10 * 10).
  { unfold sq_dev, Rsum. simpl. lra. }
  rewrite Hv. unfold nsqrt.
  destruct (Rlt_dec (10 * 10) 0) as [Hneg|_]; [lra|].
  f_equal. apply sqrt_square. lra.
Qed.

(** C10 as stated fails on a table whose GHI mean is negative: with the
    three rows -11, -1 and 9 the mean is -1 and the standard deviation 10,
    the raw consistency is 1100, and the total is above 100. *)
Lemma negative_mean_total_above_100 :
  exists rec t,
    create_solar_score negative_table = Return (Some rec) /\
    total_score rec = Fin t /\ 100 < t.
Proof.
  assert (Hs : ngt (std [-11; -1; 9]) (Fin 0) = true).
  { rewrite negative_table_std. simpl. apply Rltb_true. lra. }
  assert (Hrect : rectangular negative_table).
  { intros name c [H|[]]. injection H as _ <-. reflexivity. }
  pose proof (create_solar_score_varying negative_table [-11; -1; 9] (Fin 100)
                eq_refl eq_refl Hs) as Hrec.
  destruct (score_values negative_table _ Hrect Hrec)
    as (ghi & m & s & c & t & k & rh & Hg & _ & Hm & Hstd & _
        & (_ & _ & Hcne) & (_ & _ & Hlt) & (Hwb & _) & _ & _ & Htot).
  assert (Hg0 : series "GHI" negative_table = Return [-11; -1; 9]) by reflexivity.
  rewrite Hg0 in Hg. injection Hg as <-.
  rewrite negative_table_mean in Hm. injection Hm as <-.
  rewrite negative_table_std in Hstd. injection Hstd as <-.
  exists (assembled [-11; -1; 9] (Fin 100)). eexists.
  split; [exact Hrec|]. split; [exact Htot|].
  pose proof (reliability_term_bounds k _ Hlt) as (Hr0 & _ & _).
  assert (Hc : c = 1100).
  { rewrite Hcne by lra. replace ((1 - 10 / -1) * 100) with 1100 by lra.
    apply Rmax_left. lra. }
  assert (HM : Rmax (-1) 500 = 500) by (apply Rmax_right; lra).
  rewrite HM, Hc. lra.
Qed.

(** C3, at a failing input.  On the two-row table whose GHI is 5 and 5 the
    standard deviation is zero, no consistency entry is written, and the
    scorer ends with [KeyError: 'consistency'] instead of returning. *)
Theorem flat_table_raises :
  create_solar_score flat_table = Raise (KeyError "consistency").
Proof.
  apply (flat_column_raises flat_table [5; 5] (Fin 100) 5);
    [reflexivity | reflexivity |].
  simpl. intros x H. intuition.
Qed.

(** C4, as the code has it.  On a constant GHI column of value [v > 0] the
    scorer computes a reliability raw value of 0, since no row exceeds the
    70th percentile [v], and an energy term of [v / max(v,500) * 40]: that
    is [min(v,500) / max(v,500) * 40] up to [v = 500], and 40 above it. *)
Theorem constant_ghi_terms (df : DataFrame) (ghi : list R) (v : R) :
  series "GHI" df = Return ghi ->
  ghi <> [] ->
  (forall x, In x ghi -> x = v) ->
  0 < v ->
  optimal_threshold ghi = Fin v /\
  reliability ghi = Fin 0 /\
  energy_weighted ghi = Fin (v / Rmax v 500 * 40) /\
  (v <= 500 -> energy_weighted ghi = Fin (Rmin v 500 / Rmax v 500 * 40)) /\
  (500 < v -> energy_weighted ghi = Fin 40).
Proof.
  intros _ Hne Hc Hv.
  assert (Ht : optimal_threshold ghi = Fin v)
    by (apply quantile_const; [assumption | lia | lia | assumption]).
  assert (He : energy_weighted ghi = Fin (v / Rmax v 500 * 40))
    by (apply energy_weighted_Fin; now apply mean_const).
  split; [exact Ht|]. split; [|split; [exact He|split]].
  - unfold reliability. rewrite Ht, (percentage_above ghi v Hne).
    rewrite (count_gt_zero ghi v).
    + f_equal. simpl INR. unfold Rdiv. lra.
    + intros x Hx. rewrite (Hc x Hx). lra.
  - intros Hle. rewrite He. now rewrite (Rmin_left v 500 Hle).
  - intros Hgt. rewrite He. f_equal.
    rewrite (Rmax_left v 500) by lra. field. lra.
Qed.

Lemma constant_ghi_terms_witness :
  series "GHI" bright_flat_table = Return [600; 600] /\
  [600; 600] <> [] /\
  (forall x, In x [600; 600] -> x = 600) /\
  0 < 600 /\
  optimal_threshold [600; 600] = Fin 600 /\
  reliability [600; 600] = Fin 0 /\
  energy_weighted [600; 600] = Fin (600 / Rmax 600 500 * 40) /\
  (600 <= 500 -> energy_weighted [600; 600] = Fin (Rmin 600 500 / Rmax 600 500 * 40)) /\
  (500 < 600 -> energy_weighted [600; 600] = Fin 40).
Proof.
  assert (Hc : forall x, In x [600; 600] -> x = 600)
    by (simpl; intros x H; intuition).
  split; [reflexivity|]. split; [discriminate|]. split; [exact Hc|].
  split; [lra|].
  apply (constant_ghi_terms bright_flat_table [600; 600] 600);
    [reflexivity | discriminate | exact Hc | lra].
Defined.

(** C4 as stated fails on the constant column 600, 600: the energy term
    the scorer computes is 40, not [min(600,500) / max(600,500) * 40], and
    no record is returned that could hold either value. *)
Lemma bright_flat_table_energy :
  energy_weighted [600; 600] = Fin 40 /\
  Rmin 600 500 / Rmax 600 500 * 40 <> 40 /\
  ~ (exists rec,
       create_solar_score bright_flat_table = Return (Some rec) /\
       dict_lookup "reliability" (raw_scores rec) = Some (Fin 0) /\
       dict_lookup "energy" (components rec)
       = Some (Fin (Rmin 600 500 / Rmax 600 500 * 40))).
Proof.
  assert (Hc : forall x, In x [600; 600] -> x = 600)
    by (simpl; intros x H; intuition).
  split; [|split].
  - rewrite (energy_weighted_Fin [600; 600] 600)
      by (apply mean_const; [discriminate | exact Hc]).
    f_equal. rewrite (Rmax_left 600 500) by lra. lra.
  - rewrite (Rmin_right 600 500), (Rmax_left 600 500) by lra. lra.
  - intros [rec [Hrec _]].
    rewrite (flat_column_raises bright_flat_table [600; 600] (Fin 100) 600
               eq_refl eq_refl Hc) in Hrec.
    discriminate.
Qed.

(** * The loader's claims *)

Lemma has_column_assign (c name : string) (col : Column)
      (cols : list (string * Column)) :
  existsb (fun x => String.eqb c (fst x)) (assign name col cols)
  = String.eqb c name || existsb (fun x => String.eqb c (fst x)) cols.
Proof.
  induction cols as [|[k v] t IH]; simpl.
  - now rewrite orb_false_r.
  - destruct (String.eqb name k) eqn:Hk; simpl.
    + apply String.eqb_eq in Hk. subst k.
      destruct (String.eqb c name); reflexivity.
    + rewrite IH. destruct (String.eqb c k), (String.eqb c name); reflexivity.
Qed.

Lemma has_column_set_column (c name : string) (col : Column) (df : DataFrame) :
  has_column c (set_column name col df) = String.eqb c name || has_column c df.
Proof. apply has_column_assign. Qed.

Lemma has_column_set_index (c : string) (values : list datetime) (df : DataFrame) :
  has_column c (set_index c values df) = false.
Proof.
  unfold has_column, set_index. simpl.
  induction (columns df) as [|[k v] t IH]; simpl; [reflexivity|].
  destruct (String.eqb c k) eqn:Hk; simpl; [exact IH|].
  rewrite Hk. exact IH.
Qed.

Lemma index_set_column (name : string) (col : Column) (df : DataFrame) :
  index (set_column name col df) = index df.
Proof. reflexivity. Qed.

Section LoaderProperties.

Variable File : Type.
Variable read_csv : File -> outcome DataFrame.
Variable to_datetime : Column -> outcome (list datetime).

Local Abbreviation detect := (detect_timestamp to_datetime).
Local Abbreviation try_block := (load_data_try File read_csv to_datetime).
Local Abbreviation load := (load_data File read_csv to_datetime).

(** The success message for a table. *)
Local Abbreviation loaded df :=
  ("Successfully loaded " ++ str_of_nat (len df) ++ " rows with "
   ++ str_of_nat (length (columns df)) ++ " columns")%string.

(** The failure message for an exception. *)
Local Abbreviation failed e := ("Error loading file: " ++ exn_str e)%string.

Lemma detect_timestamp_absent (cols : list string) (df : DataFrame) :
  (forall c, In c cols -> has_column c df = false) ->
  detect cols df = Return df.
Proof.
  induction cols as [|c rest IH]; intros H; [reflexivity|].
  simpl. rewrite (H c) by now left.
  apply IH. intros x Hx. apply H. now right.
Qed.

Lemma detect_timestamp_first
      (pre post : list string) (c : string) (col : Column) (df : DataFrame) :
  (forall x, In x pre -> has_column x df = false) ->
  get_column c df = Some col ->
  detect (pre ++ c :: post) df
  = (values <- to_datetime col ;;
     Return (set_index c values (set_column c (DateCol values) df))).
Proof.
  intros Hpre Hc. induction pre as [|x pre IH].
  - simpl.
    assert (Hhas : has_column c df = true)
      by (apply has_column_get_column; now exists col).
    now rewrite Hhas, Hc.
  - simpl. rewrite (Hpre x) by now left.
    apply IH. intros y Hy. apply Hpre. now right.
Qed.

(** Once the index is a datetime index the three calendar columns are
    derived and the load succeeds. *)
Lemma load_data_try_stamped (f : File) (df df1 : DataFrame)
      (name : string) (values : list datetime) :
  read_csv f = Return df ->
  detect timestamp_cols df = Return df1 ->
  index df1 = DatetimeIndex name values ->
  exists df',
    try_block f = Return (df', loaded df') /\
    index df' = DatetimeIndex name values /\
    df' = set_column "DayOfWeek" (IntCol (map dt_dayofweek values))
            (set_column "Month" (IntCol (map dt_month values))
               (set_column "Hour" (IntCol (map dt_hour values)) df1)).
Proof.
  intros Hr Hd Hi. eexists. split; [|split; [|reflexivity]].
  - unfold load_data_try. rewrite Hr, bind_Return, Hd, bind_Return.
    destruct df1 as [idx cols]. simpl in Hi. subst idx. reflexivity.
  - simpl. exact Hi.
Qed.

(** Without a datetime index the first calendar attribute is missing. *)
Lemma load_data_try_positional (f : File) (df df1 : DataFrame) (n : nat) :
  read_csv f = Return df ->
  detect timestamp_cols df = Return df1 ->
  index df1 = RangeIndex n ->
  try_block f = Raise (AttributeError "RangeIndex" "hour").
Proof.
  intros Hr Hd Hi. unfold load_data_try.
  rewrite Hr, bind_Return, Hd, bind_Return, Hi. reflexivity.
Qed.

Lemma load_data_of_raise (f : File) (e : exn) :
  try_block f = Raise e -> load f = (None, failed e).
Proof. intros H. unfold load_data. now rewrite H. Qed.

Lemma load_data_of_return (f : File) (df : DataFrame) (message : string) :
  try_block f = Return (df, message) -> load f = (Some df, message).
Proof. intros H. unfold load_data. now rewrite H. Qed.

(** A table read with a positional index and none of the candidate
    columns is refused. *)
Lemma load_data_positional (f : File) (df : DataFrame) (n : nat) :
  read_csv f = Return df ->
  index df = RangeIndex n ->
  (forall c, In c timestamp_cols -> has_column c df = false) ->
  load f = (None, failed (AttributeError "RangeIndex" "hour")).
Proof.
  intros Hr Hi Hnone. apply load_data_of_raise.
  apply (load_data_try_positional f df df n Hr); [|exact Hi].
  now apply detect_timestamp_absent.
Qed.

Lemma timestamp_col_not_derived (c : string) :
  In c timestamp_cols ->
  String.eqb c "Hour" = false /\ String.eqb c "Month" = false /\
  String.eqb c "DayOfWeek" = false.
Proof.
  unfold timestamp_cols. simpl.
  intros [<-|[<-|[<-|[<-|[<-|[<-|[]]]]]]]; repeat split; reflexivity.
Qed.

(** C6.  [load_data] always returns a pair.  Either the body of its
    [try] block raised, and the pair is the null table with a message
    that embeds the text of the exception; or the body finished, and the
    pair is the table, enriched with the three calendar columns, with a
    message that spells out its row and column counts. *)
Theorem load_data_returns_pair (f : File) :
  (exists e, try_block f = Raise e /\ load f = (None, failed e)) \/
  (exists df,
      try_block f = Return (df, loaded df) /\
      load f = (Some df, loaded df) /\
      has_column "Hour" df = true /\
      has_column "Month" df = true /\
      has_column "DayOfWeek" df = true).
Proof.
  destruct (try_block f) as [[df message]|e] eqn:Ht.
  2:{ left. exists e. split; [reflexivity | now apply load_data_of_raise]. }
  right.
  assert (Hshape : exists df0 df1 name values,
             read_csv f = Return df0 /\
             detect timestamp_cols df0 = Return df1 /\
             index df1 = DatetimeIndex name values).
  { unfold load_data_try in Ht.
    destruct (read_csv f) as [df0|e] eqn:Hr; [|discriminate].
    rewrite bind_Return in Ht.
    destruct (detect timestamp_cols df0) as [df1|e] eqn:Hd; [|discriminate].
    rewrite bind_Return in Ht.
    destruct (index df1) as [n|name values] eqn:Hi; [discriminate|].
    exists df0, df1, name, values. repeat split; assumption. }
  destruct Hshape as (df0 & df1 & name & values & Hr & Hd & Hi).
  destruct (load_data_try_stamped f df0 df1 name values Hr Hd Hi)
    as (df' & Ht' & _ & Hdf').
  rewrite Ht in Ht'. injection Ht' as -> ->.
  exists df'. split; [reflexivity|].
  split; [now apply load_data_of_return|].
  rewrite Hdf', !has_column_set_column. repeat split; reflexivity.
Qed.

(** C7.  The candidate names are tried in the order Timestamp, timestamp,
    Date, date, Time, time: when [c] is the first of them that is a column
    of the table read, that column is the one handed to [to_datetime]; if
    the parse raises the load fails with that error, and if it succeeds
    the parsed values become the index, named [c], and [c] is no longer a
    column.  A table that has a [Timestamp] column is indexed by it,
    whatever other candidates it has. *)
Theorem timestamp_priority
        (f : File) (df : DataFrame) (pre post : list string)
        (c : string) (col : Column) :
  read_csv f = Return df ->
  timestamp_cols = pre ++ c :: post ->
  (forall x, In x pre -> has_column x df = false) ->
  get_column c df = Some col ->
  (forall e, to_datetime col = Raise e -> load f = (None, failed e)) /\
  (forall values, to_datetime col = Return values ->
     exists df', load f = (Some df', loaded df') /\
                 index df' = DatetimeIndex c values /\
                 has_column c df' = false) /\
  (has_column "Timestamp" df = true -> c = "Timestamp").
Proof.
  intros Hr Hsplit Hpre Hc.
  pose proof (detect_timestamp_first pre post c col df Hpre Hc) as Hd.
  rewrite <- Hsplit in Hd.
  split; [|split].
  - intros e He. apply load_data_of_raise.
    unfold load_data_try. rewrite Hr, bind_Return, Hd, He. reflexivity.
  - intros values Hv. rewrite Hv, bind_Return in Hd.
    destruct (load_data_try_stamped f df _ c values Hr Hd eq_refl)
      as (df' & Ht & Hi & Hdf').
    exists df'. split; [now apply load_data_of_return|].
    split; [exact Hi|].
    assert (Hin : In c timestamp_cols)
      by (rewrite Hsplit; apply in_or_app; right; now left).
    destruct (timestamp_col_not_derived c Hin) as (H1 & H2 & H3).
    rewrite Hdf', !has_column_set_column, H1, H2, H3.
    simpl. apply has_column_set_index.
  - intros Hts. destruct pre as [|x pre'].
    + unfold timestamp_cols in Hsplit. simpl in Hsplit. congruence.
    + unfold timestamp_cols in Hsplit. simpl in Hsplit.
      injection Hsplit as Hx _. subst x.
      rewrite (Hpre "Timestamp") in Hts by now left. discriminate.
Qed.

(** C5, as the code has it.  When the table read has none of the six
    candidate columns it keeps its positional index, the first calendar
    feature cannot be derived from it, and [load_data] returns the null
    table with the message of that attribute error. *)
Theorem no_timestamp_no_table (f : File) (df : DataFrame) (n : nat) :
  read_csv f = Return df ->
  index df = RangeIndex n ->
  (forall c, In c timestamp_cols -> has_column c df = false) ->
  load f = (None, "Error loading file: 'RangeIndex' object has no attribute 'hour'").
Proof. exact (load_data_positional f df n). Qed.

End LoaderProperties.

Lemma timestamp_priority_witness :
  read_parsed stamped_table = Return stamped_table /\
  timestamp_cols = [] ++ "Timestamp" :: ["timestamp"; "Date"; "date"; "Time"; "time"] /\
  (forall x, In x [] -> has_column x stamped_table = false) /\
  get_column "Timestamp" stamped_table
  = Some (ObjCol ["2024-01-01 06:00:00"; "2024-01-01 12:00:00"]) /\
  (forall e,
      to_datetime_iso (ObjCol ["2024-01-01 06:00:00"; "2024-01-01 12:00:00"]) = Raise e ->
      load_data DataFrame read_parsed to_datetime_iso stamped_table
      = (None, ("Error loading file: " ++ exn_str e)%string)) /\
  (forall values,
      to_datetime_iso (ObjCol ["2024-01-01 06:00:00"; "2024-01-01 12:00:00"])
      = Return values ->
      exists df',
        load_data DataFrame read_parsed to_datetime_iso stamped_table
        = (Some df',
           ("Successfully loaded " ++ str_of_nat (len df') ++ " rows with "
            ++ str_of_nat (length (columns df')) ++ " columns")%string) /\
        index df' = DatetimeIndex "Timestamp" values /\
        has_column "Timestamp" df' = false) /\
  (has_column "Timestamp" stamped_table = true -> "Timestamp" = "Timestamp").
Proof.
  split; [reflexivity|]. split; [reflexivity|].
  split; [intros x []|]. split; [reflexivity|].
  apply (timestamp_priority DataFrame read_parsed to_datetime_iso stamped_table
           stamped_table [] ["timestamp"; "Date"; "date"; "Time"; "time"]
           "Timestamp" (ObjCol ["2024-01-01 06:00:00"; "2024-01-01 12:00:00"]));
    [reflexivity | reflexivity | intros x [] | reflexivity].
Defined.

Lemma no_candidate_column (df : DataFrame) :
  has_column "Timestamp" df = false -> has_column "timestamp" df = false ->
  has_column "Date" df = false -> has_column "date" df = false ->
  has_column "Time" df = false -> has_column "time" df = false ->
  forall c, In c timestamp_cols -> has_column c df = false.
Proof.
  intros H1 H2 H3 H4 H5 H6 c.
  unfold timestamp_cols. simpl.
  intros [<-|[<-|[<-|[<-|[<-|[<-|[]]]]]]]; assumption.
Qed.

Lemma no_timestamp_no_table_witness :
  read_parsed varying_table = Return varying_table /\
  index varying_table = RangeIndex 3 /\
  (forall c, In c timestamp_cols -> has_column c varying_table = false) /\
  load_data DataFrame read_parsed to_datetime_iso varying_table
  = (None, "Error loading file: 'RangeIndex' object has no attribute 'hour'").
Proof.
  assert (Hnone : forall c, In c timestamp_cols -> has_column c varying_table = false)
    by (apply no_candidate_column; reflexivity).
  split; [reflexivity|]. split; [reflexivity|]. split; [exact Hnone|].
  apply (no_timestamp_no_table DataFrame read_parsed to_datetime_iso
           varying_table varying_table 3); [reflexivity | reflexivity | exact Hnone].
Defined.

(** C5 as stated fails on a table with a single [GHI] column: none of the
    six names is a column, and the loader hands back the null table. *)
Lemma unstamped_table_not_loaded :
  (forall c, In c timestamp_cols -> has_column c unstamped_table = false) /\
  fst (load_data DataFrame read_parsed to_datetime_iso unstamped_table) = None.
Proof.
  assert (Hnone : forall c, In c timestamp_cols -> has_column c unstamped_table = false)
    by (apply no_candidate_column; reflexivity).
  split; [exact Hnone|].
  rewrite (load_data_positional DataFrame read_parsed to_datetime_iso
             unstamped_table unstamped_table 3 eq_refl eq_refl Hnone).
  reflexivity.
Qed.

(** The loader on the sample with both a [Date] and a [Timestamp] column:
    [Timestamp] becomes the index, [Date] stays a column, and the calendar
    columns follow the timestamps (2024-01-01 was a Monday). *)
Example stamped_table_loaded :
  load_data DataFrame read_parsed to_datetime_iso stamped_table
  = (Some {| index := DatetimeIndex "Timestamp"
                        [mkDatetime 2024 1 1 6 0 0; mkDatetime 2024 1 1 12 0 0];
             columns :=
               [ ("Date", ObjCol ["2024-01-01 00:00:00"; "2024-01-01 00:00:00"]);
                 ("GHI", FloatCol [45; 250]);
                 ("Hour", IntCol [6; 12]%Z);
                 ("Month", IntCol [1; 1]%Z);
                 ("DayOfWeek", IntCol [0; 0]%Z) ] |},
     "Successfully loaded 2 rows with 5 columns").
Proof. reflexivity. Qed.

(** The scorer's energy term on the three GHI readings 45.2, 250 and 30:
    the mean is 108.4 and the term is 108.4 / 500 * 40 = 8.672. *)
Example energy_weighted_three_rows :
  energy_weighted [45.2; 250; 30] = Fin 8.672.
Proof.
  rewrite (energy_weighted_Fin [45.2; 250; 30] 108.4).
  - f_equal. rewrite (Rmax_right 108.4 500) by lra. lra.
  - unfold mean, Rsum. simpl. f_equal. lra.
Qed.

(** * Further properties of the scorer *)

(** ** The sorted values behind the quantile *)

Lemma insert_sorted (x : R) (l : list R) :
  StronglySorted Rle l -> StronglySorted Rle (insert x l).
Proof.
  induction l as [|a t IH]; intros Hs; simpl.
  - constructor; constructor.
  - apply StronglySorted_inv in Hs. destruct Hs as [Ht Ha].
    destruct (Rle_dec x a) as [Hle|Hgt].
    + constructor; [now constructor|].
      constructor; [assumption|].
      rewrite Forall_forall in *. intros y Hy. specialize (Ha y Hy). lra.
    + constructor; [now apply IH|].
      rewrite Forall_forall in *. intros y Hy.
      apply In_insert in Hy. destruct Hy as [->|Hy]; [lra | now apply Ha].
Qed.

Lemma sort_sorted (l : list R) : StronglySorted Rle (sort l).
Proof.
  induction l as [|a t IH]; simpl; [constructor | now apply insert_sorted].
Qed.

Lemma sorted_nth_le (s : list R) :
  StronglySorted Rle s ->
  forall i j, (i <= j)%nat -> (j < length s)%nat -> nth i s 0 <= nth j s 0.
Proof.
  induction 1 as [|a l Hl IH Ha]; intros i j Hij Hj; [simpl in Hj; lia|].
  destruct j as [|j].
  - assert (i = 0%nat) by lia. subst i. simpl. lra.
  - simpl in Hj. destruct i as [|i].
    + simpl. rewrite Forall_forall in Ha. apply Ha, nth_In. lia.
    + simpl. apply IH; lia.
Qed.

Lemma count_gt_cons (a : R) (l : list R) (t : R) :
  count_true (gt_series (a :: l) (Fin t))
  = ((if Rltb t a then 1 else 0) + count_true (gt_series l (Fin t)))%nat.
Proof.
  unfold count_true, gt_series. simpl. destruct (Rltb t a); reflexivity.
Qed.

Lemma count_gt_insert (x : R) (l : list R) (t : R) :
  count_true (gt_series (insert x l) (Fin t))
  = count_true (gt_series (x :: l) (Fin t)).
Proof.
  induction l as [|a l' IH]; [reflexivity|].
  simpl insert. destruct (Rle_dec x a); [reflexivity|].
  rewrite count_gt_cons, IH, !count_gt_cons. lia.
Qed.

(** Sorting does not change how many values exceed a threshold. *)
Lemma count_gt_sort (l : list R) (t : R) :
  count_true (gt_series (sort l) (Fin t)) = count_true (gt_series l (Fin t)).
Proof.
  induction l as [|a l' IH]; [reflexivity|].
  simpl sort. rewrite count_gt_insert, !count_gt_cons, IH. reflexivity.
Qed.

(** In sorted values, nothing up to a position whose value does not exceed
    the threshold is counted. *)
Lemma sorted_count_gt (s : list R) (t : R) :
  StronglySorted Rle s ->
  forall i, (i < length s)%nat -> nth i s 0 <= t ->
  (count_true (gt_series s (Fin t)) + (i + 1) <= length s)%nat.
Proof.
  induction 1 as [|a l Hl IH Ha]; intros i Hi Ht; [simpl in Hi; lia|].
  rewrite count_gt_cons. simpl length. simpl in Hi.
  destruct i as [|i].
  - simpl in Ht. rewrite (Rltb_false t a Ht).
    pose proof (count_true_le (gt_series l (Fin t))) as Hc.
    rewrite gt_series_length in Hc. lia.
  - simpl in Ht.
    assert (Hat : a <= t).
    { rewrite Forall_forall in Ha.
      assert (a <= nth i l 0) by (apply Ha, nth_In; lia). lra. }
    rewrite (Rltb_false t a Hat).
    specialize (IH i ltac:(lia) Ht). lia.
Qed.

(** The 70th percentile is at least the sorted value at its lower
    neighbour, so at most the rows past that position can exceed it. *)
Lemma reliability_count (ghi : list R) :
  ghi <> [] ->
  exists t : R,
    optimal_threshold ghi = Fin t /\
    (count_true (gt_series ghi (Fin t)) + ((length ghi - 1) * 7 / 10 + 1)
     <= length ghi)%nat.
Proof.
  intros Hne. destruct ghi as [|a l]; [congruence|].
  unfold optimal_threshold, quantile.
  set (xs := a :: l). set (n := length xs).
  set (i := ((n - 1) * 7 / 10)%nat). set (j := Nat.min (i + 1) (n - 1)).
  set (g := INR (((n - 1) * 7) mod 10) / INR 10).
  assert (Hn : (0 < n)%nat) by (unfold n, xs; simpl; lia).
  assert (Hi : (i <= n - 1)%nat) by (apply quantile_index; lia).
  assert (Hlen : length (sort xs) = n) by apply length_sort.
  assert (Hij : nth i (sort xs) 0 <= nth j (sort xs) 0).
  { apply sorted_nth_le; [apply sort_sorted | unfold j; lia | unfold j; lia]. }
  assert (Hg : 0 <= g < 1) by (apply quantile_fraction; lia).
  eexists. split; [reflexivity|].
  rewrite <- (count_gt_sort xs). rewrite <- Hlen.
  apply sorted_count_gt; [apply sort_sorted | lia | nra].
Qed.

Lemma reliability_cap_real (k n : nat) :
  (0 < n)%nat -> (k + ((n - 1) * 7 / 10 + 1) <= n)%nat ->
  INR k / INR n * 100 <= 30 + 60 / INR n.
Proof.
  intros Hn Hk.
  assert (Hnat : (10 * k <= 3 * n + 6)%nat).
  { pose proof (Nat.div_mod_eq ((n - 1) * 7) 10) as Hd.
    pose proof (Nat.mod_upper_bound ((n - 1) * 7) 10 ltac:(lia)) as Hr.
    lia. }
  assert (Hreal : 10 * INR k <= 3 * INR n + 6).
  { apply le_INR in Hnat. rewrite plus_INR, !mult_INR in Hnat.
    simpl in Hnat. lra. }
  assert (Hpos : 0 < INR n) by (now apply lt_0_INR).
  assert (Hinv : 0 < / INR n) by (now apply Rinv_0_lt_compat).
  assert (Hone : INR n * / INR n = 1) by (apply Rinv_r; lra).
  unfold Rdiv. nra.
Qed.







(** X3.  The floor at 0 of the weather score never acts: in every
    returned record the weather raw value is at least 50, it is exactly
    100 less half the percentage of rows with [RH] above 85 when there is
    an [RH] column, and the weighted weather is at least 5 of its 10
    points. *)
Theorem weather_never_floored (df : DataFrame) (rec : ScoreRecord) :
  rectangular df ->
  create_solar_score df = Return (Some rec) ->
  exists w : R,
    dict_lookup "weather" (raw_scores rec) = Some (Fin w) /\
    dict_lookup "weather" (components rec) = Some (Fin (w / 100 * 10)) /\
    50 <= w <= 100 /\
    (forall rh, series "RH" df = Return rh ->
       w = 100 - 0.5 * (INR (count_true (gt_series rh (Fin 85)))
                        / INR (length rh) * 100)).
Proof.
  intros Hrect Hrec.
  destruct (score_values df rec Hrect Hrec)
    as (ghi & m & s & c & t & k & rh & Hg & Hn & _ & _ & _ & _ & _
        & (Hwb & Hrh) & Hraw & Hcomp & _).
  exists (weather_contract rh). rewrite Hraw, Hcomp.
  split; [reflexivity|]. split; [reflexivity|].
  destruct rh as [xs|].
  - destruct Hrh as [_ Hser].
    assert (Hlen : length xs = length ghi).
    { rewrite (series_length _ _ _ Hrect Hser), (series_length _ _ _ Hrect Hg).
      reflexivity. }
    assert (Hp : 0 <= INR (count_true (gt_series xs (Fin 85)))
                      / INR (length xs) * 100 <= 100).
    { apply percentage_bounds; [|lia].
      rewrite <- (gt_series_length xs (Fin 85)). apply count_true_le. }
    assert (Hw : weather_contract (Some xs)
                 = 100 - 0.5 * (INR (count_true (gt_series xs (Fin 85)))
                                / INR (length xs) * 100)).
    { unfold weather_contract. apply Rmax_left. lra. }
    split; [rewrite Hw; lra|].
    intros rh' Hrh'. assert (rh' = xs) by congruence. subst rh'. exact Hw.
  - simpl. split; [lra|].
    intros rh' Hrh'. apply series_has_column in Hrh'. congruence.
Qed.

Lemma weather_never_floored_witness :
  exists rec,
    create_solar_score varying_table = Return (Some rec) /\
    exists w : R,
      dict_lookup "weather" (raw_scores rec) = Some (Fin w) /\
      dict_lookup "weather" (components rec) = Some (Fin (w / 100 * 10)) /\
      50 <= w <= 100 /\
      (forall rh, series "RH" varying_table = Return rh ->
         w = 100 - 0.5 * (INR (count_true (gt_series rh (Fin 85)))
                          / INR (length rh) * 100)).
Proof.
  destruct varying_table_scored as [rec Hrec]. exists rec.
  split; [exact Hrec|].
  exact (weather_never_floored varying_table rec varying_table_rectangular Hrec).
Defined.

(** ** How high a total can get *)

(** For non-negative GHI the total is the energy term plus strictly less
    than [46 + 12/n]: under 30 for consistency, at most [6 + 12/n] for
    reliability and at most 10 for weather. *)
Lemma total_upper (df : DataFrame) (rec : ScoreRecord) (ghi : list R) :
  rectangular df ->
  series "GHI" df = Return ghi ->
  (forall x, In x ghi -> 0 <= x) ->
  create_solar_score df = Return (Some rec) ->
  exists m t : R,
    mean ghi = Fin m /\ 0 < m /\ (2 <= length ghi)%nat /\
    total_score rec = Fin t /\
    0 <= t /\
    t < m / Rmax m 500 * 40 + 46 + 12 / INR (length ghi).
Proof.
  intros Hrect Hg Hnn Hrec.
  destruct (score_values df rec Hrect Hrec)
    as (ghi' & m & s & c & t & k & rh & Hg' & Hn & Hm & Hstd & Hpos
        & (_ & Hc0 & Hcne) & (Ht & Hk & Hlt) & (Hwb & _) & _ & _ & Htot).
  assert (ghi' = ghi) by congruence. subst ghi'.
  assert (Hne : ghi <> []) by (intros ->; simpl in Hn; lia).
  assert (Hs : ngt (std ghi) (Fin 0) = true)
    by (rewrite Hstd; simpl; now apply Rltb_true).
  destruct (mean_pos ghi Hnn Hs) as [m' [Hm' Hmp]].
  assert (m' = m) by congruence. subst m'.
  destruct (reliability_count ghi Hne) as [t' [Ht' Hcount]].
  assert (t' = t) by congruence. subst t'. rewrite <- Hk in Hcount.
  pose proof (reliability_cap_real k (length ghi) ltac:(lia) Hcount) as Hcap.
  pose proof (reliability_term_bounds k (length ghi) Hlt) as (Hr0 & _ & _).
  pose proof (consistency_term_bounds s m c Hpos (Rlt_le _ _ Hmp) Hc0 Hcne) as Hcb.
  pose proof (energy_term_bounds m) as [_ He0].
  specialize (He0 (Rlt_le _ _ Hmp)).
  exists m. eexists. repeat (split; [eassumption|]).
  unfold Rdiv in *. split; lra.
Qed.

(** X4.  On a table of non-negative GHI values with [n] rows, every total
    the scorer returns lies in [0, 86 + 12/n): the reliability term alone
    keeps it well away from 100. *)
Theorem total_below_86 (df : DataFrame) (rec : ScoreRecord) (ghi : list R) :
  rectangular df ->
  series "GHI" df = Return ghi ->
  (forall x, In x ghi -> 0 <= x) ->
  create_solar_score df = Return (Some rec) ->
  exists t : R,
    total_score rec = Fin t /\ 0 <= t < 86 + 12 / INR (length ghi) /\ t < 92.
Proof.
  intros Hrect Hg Hnn Hrec.
  destruct (total_upper df rec ghi Hrect Hg Hnn Hrec)
    as (m & t & _ & _ & Hn & Ht & H0 & Hup).
  pose proof (energy_term_bounds m) as [He _].
  assert (Hinv : 12 / INR (length ghi) <= 6).
  { assert (H2 : 2 <= INR (length ghi))
      by (replace 2 with (INR 2) by (simpl; lra); now apply le_INR).
    assert (Hp : 0 < / INR (length ghi)) by (apply Rinv_0_lt_compat; lra).
    assert (H1 : INR (length ghi) * / INR (length ghi) = 1)
      by (apply Rinv_r; lra).
    unfold Rdiv. nra. }
  exists t. split; [exact Ht|]. lra.
Qed.

Lemma varying_table_nonneg : forall x, In x [100; 200; 300] -> 0 <= x.
Proof. simpl. intros x H. intuition lra. Qed.

Lemma total_below_86_witness :
  exists rec,
    create_solar_score varying_table = Return (Some rec) /\
    exists t : R,
      total_score rec = Fin t /\
      0 <= t < 86 + 12 / INR (length [100; 200; 300]) /\ t < 92.
Proof.
  destruct varying_table_scored as [rec Hrec]. exists rec.
  split; [exact Hrec|].
  exact (total_below_86 varying_table rec [100; 200; 300]
           varying_table_rectangular eq_refl varying_table_nonneg Hrec).
Defined.

Lemma nge_Fin_false (x y : R) : x < y -> nge (Fin x) (Fin y) = false.
Proof. intros H. simpl. now rewrite (Rltb_true x y H). Qed.

Lemma nge_Fin_true (x y : R) : y <= x -> nge (Fin x) (Fin y) = true.
Proof. intros H. simpl. now rewrite (Rltb_false x y H). Qed.

(** X5.  A table of non-negative GHI values whose mean is at most 350
    W/m2 is never rated EXCELLENT by [main]: its total stays below 80. *)
Theorem never_excellent_below_350
        (df : DataFrame) (rec : ScoreRecord) (ghi : list R) (m : R) :
  rectangular df ->
  series "GHI" df = Return ghi ->
  (forall x, In x ghi -> 0 <= x) ->
  mean ghi = Fin m -> m <= 350 ->
  create_solar_score df = Return (Some rec) ->
  (exists t, total_score rec = Fin t /\ t < 80) /\
  main_insight (Some rec) <> Some Excellent.
Proof.
  intros Hrect Hg Hnn Hm Hle Hrec.
  destruct (total_upper df rec ghi Hrect Hg Hnn Hrec)
    as (m' & t & Hm' & Hmp & Hn & Ht & _ & Hup).
  assert (m' = m) by congruence. subst m'.
  assert (Hinv : 12 / INR (length ghi) <= 6).
  { assert (H2 : 2 <= INR (length ghi))
      by (replace 2 with (INR 2) by (simpl; lra); now apply le_INR).
    assert (Hp : 0 < / INR (length ghi)) by (apply Rinv_0_lt_compat; lra).
    assert (H1 : INR (length ghi) * / INR (length ghi) = 1)
      by (apply Rinv_r; lra).
    unfold Rdiv. nra. }
  rewrite (Rmax_right m 500) in Hup by lra.
  assert (Ht80 : t < 80) by lra.
  split; [now exists t|].
  unfold main_insight. rewrite Ht, (nge_Fin_false t 80 Ht80).
  destruct (nge (Fin t) (Fin 60)); discriminate.
Qed.

Lemma varying_table_mean : mean [100; 200; 300] = Fin 200.
Proof. unfold mean, Rsum. simpl. f_equal. lra. Qed.

Lemma never_excellent_below_350_witness :
  exists rec,
    create_solar_score varying_table = Return (Some rec) /\
    (exists t, total_score rec = Fin t /\ t < 80) /\
    main_insight (Some rec) <> Some Excellent.
Proof.
  destruct varying_table_scored as [rec Hrec]. exists rec.
  split; [exact Hrec|].
  apply (never_excellent_below_350 varying_table rec [100; 200; 300] 200
           varying_table_rectangular eq_refl varying_table_nonneg
           varying_table_mean); [lra | exact Hrec].
Defined.

(** X6.  The Insights callout of [main] and the scorecard caption of
    [render_solar_scorecard] cut the total at different places: from 80 up
    the callout is EXCELLENT and the caption High Potential, below 60 they
    are MODERATE and Moderate, but a total above 70 and below 80 is GOOD
    with the caption High Potential, and a total from 60 to 70 is GOOD with
    the caption Moderate. *)
Theorem insight_and_caption (rec : ScoreRecord) (t : R) :
  total_score rec = Fin t ->
  (80 <= t -> main_insight (Some rec) = Some Excellent /\
              render_solar_scorecard_delta (Some rec) = Some "High Potential") /\
  (70 < t < 80 -> main_insight (Some rec) = Some Good /\
                  render_solar_scorecard_delta (Some rec) = Some "High Potential") /\
  (60 <= t <= 70 -> main_insight (Some rec) = Some Good /\
                    render_solar_scorecard_delta (Some rec) = Some "Moderate") /\
  (t < 60 -> main_insight (Some rec) = Some Moderate /\
             render_solar_scorecard_delta (Some rec) = Some "Moderate").
Proof.
  intros Ht. unfold main_insight, render_solar_scorecard_delta. rewrite Ht.
  split; [|split; [|split]]; intros H; split.
  - now rewrite nge_Fin_true by lra.
  - simpl. now rewrite Rltb_true by lra.
  - now rewrite nge_Fin_false, nge_Fin_true by lra.
  - simpl ngt. now rewrite Rltb_true by lra.
  - now rewrite nge_Fin_false, nge_Fin_true by lra.
  - simpl ngt. now rewrite Rltb_false by lra.
  - now rewrite !nge_Fin_false by lra.
  - simpl ngt. now rewrite Rltb_false by lra.
Qed.

Lemma insight_and_caption_witness :
  exists rec t,
    create_solar_score varying_table = Return (Some rec) /\
    total_score rec = Fin t /\
    (80 <= t -> main_insight (Some rec) = Some Excellent /\
                render_solar_scorecard_delta (Some rec) = Some "High Potential") /\
    (70 < t < 80 -> main_insight (Some rec) = Some Good /\
                    render_solar_scorecard_delta (Some rec) = Some "High Potential") /\
    (60 <= t <= 70 -> main_insight (Some rec) = Some Good /\
                      render_solar_scorecard_delta (Some rec) = Some "Moderate") /\
    (t < 60 -> main_insight (Some rec) = Some Moderate /\
               render_solar_scorecard_delta (Some rec) = Some "Moderate").
Proof.
  destruct varying_table_scored as [rec Hrec].
  destruct (total_upper varying_table rec [100; 200; 300]
              varying_table_rectangular eq_refl varying_table_nonneg Hrec)
    as (m & t & _ & _ & _ & Ht & _).
  exists rec, t. split; [exact Hrec|]. split; [exact Ht|].
  exact (insight_and_caption rec t Ht).
Defined.

(** * Further properties of the loader *)

(** ** Columns under assignment and re-indexing *)

Lemma find_assign_other (n name : string) (col : Column)
      (cols : list (string * Column)) :
  n <> name ->
  find (fun c => String.eqb n (fst c)) (assign name col cols)
  = find (fun c => String.eqb n (fst c)) cols.
Proof.
  intros Hne. apply String.eqb_neq in Hne.
  induction cols as [|[k v] t IH]; simpl.
  - now rewrite Hne.
  - destruct (String.eqb name k) eqn:Hk; simpl.
    + apply String.eqb_eq in Hk. subst k. now rewrite Hne.
    + destruct (String.eqb n k); [reflexivity | exact IH].
Qed.

Lemma find_assign_same (name : string) (col : Column)
      (cols : list (string * Column)) :
  find (fun c => String.eqb name (fst c)) (assign name col cols)
  = Some (name, col).
Proof.
  induction cols as [|[k v] t IH]; simpl.
  - now rewrite String.eqb_refl.
  - destruct (String.eqb name k) eqn:Hk; simpl.
    + now rewrite String.eqb_refl.
    + now rewrite Hk.
Qed.

Lemma get_column_set_column_other (n name : string) (col : Column) (df : DataFrame) :
  n <> name -> get_column n (set_column name col df) = get_column n df.
Proof.
  intros Hne. unfold get_column, set_column. simpl.
  now rewrite find_assign_other.
Qed.

Lemma get_column_set_column_same (name : string) (col : Column) (df : DataFrame) :
  get_column name (set_column name col df) = Some col.
Proof.
  unfold get_column, set_column. simpl. now rewrite find_assign_same.
Qed.

Lemma get_column_set_index_other (n c : string) (values : list datetime)
      (df : DataFrame) :
  n <> c -> get_column n (set_index c values df) = get_column n df.
Proof.
  intros Hne. unfold get_column, set_index. simpl.
  induction (columns df) as [|[k v] t IH]; simpl; [reflexivity|].
  destruct (String.eqb c k) eqn:Hk; simpl.
  - apply String.eqb_eq in Hk. subst k.
    apply String.eqb_neq in Hne. now rewrite Hne.
  - destruct (String.eqb n k); [reflexivity | exact IH].
Qed.

Lemma has_column_as_get (n : string) (df : DataFrame) :
  has_column n df = match get_column n df with Some _ => true | None => false end.
Proof.
  destruct (get_column n df) as [c|] eqn:Hc.
  - apply has_column_get_column. now exists c.
  - destruct (has_column n df) eqn:Hh; [|reflexivity].
    apply has_column_get_column in Hh. destruct Hh as [c Hc']. congruence.
Qed.

(** The scorer reads nothing of a table but its [GHI] and [RH] columns. *)
Lemma create_solar_score_ext (df1 df2 : DataFrame) :
  get_column "GHI" df1 = get_column "GHI" df2 ->
  get_column "RH" df1 = get_column "RH" df2 ->
  create_solar_score df1 = create_solar_score df2.
Proof.
  intros Hg Hr. unfold create_solar_score, weather_score, series.
  rewrite !has_column_as_get, Hg, Hr. reflexivity.
Qed.

Lemma In_assign (n name : string) (c col : Column) (cols : list (string * Column)) :
  In (n, c) (assign name col cols) -> (n, c) = (name, col) \/ In (n, c) cols.
Proof.
  induction cols as [|[k v] t IH]; simpl.
  - intros [H|[]]. left. now symmetry.
  - destruct (String.eqb name k); simpl.
    + intros [H|H]; [left; now symmetry | right; now right].
    + intros [H|H]; [right; now left|].
      destruct (IH H) as [H'|H']; [now left | right; now right].
Qed.

Lemma len_set_column (name : string) (col : Column) (df : DataFrame) :
  len (set_column name col df) = len df.
Proof. reflexivity. Qed.

Lemma rectangular_set_column (name : string) (col : Column) (df : DataFrame) :
  rectangular df -> column_length col = len df ->
  rectangular (set_column name col df).
Proof.
  intros Hr Hc n c Hin. rewrite len_set_column.
  apply In_assign in Hin. destruct Hin as [H|H].
  - injection H as _ ->. exact Hc.
  - now apply (Hr n c).
Qed.

Section LoaderComposition.

Variable File : Type.
Variable read_csv : File -> outcome DataFrame.
Variable to_datetime : Column -> outcome (list datetime).

Local Abbreviation detect := (detect_timestamp to_datetime).
Local Abbreviation try_block := (load_data_try File read_csv to_datetime).
Local Abbreviation load := (load_data File read_csv to_datetime).

(** The loop either leaves the table alone or re-indexes it by one of the
    candidate columns. *)
Lemma detect_timestamp_shape (cols : list string) (df df1 : DataFrame) :
  detect cols df = Return df1 ->
  df1 = df \/
  exists c col values,
    In c cols /\ get_column c df = Some col /\
    to_datetime col = Return values /\
    df1 = set_index c values (set_column c (DateCol values) df).
Proof.
  induction cols as [|c rest IH]; simpl; intros H.
  - left. congruence.
  - destruct (has_column c df).
    + destruct (get_column c df) as [col|] eqn:Hc; [|discriminate].
      destruct (to_datetime col) as [values|e] eqn:Hv; [|discriminate].
      rewrite bind_Return in H. injection H as <-.
      right. exists c, col, values. repeat split; try assumption. now left.
    + destruct (IH H) as [->|(c' & col & values & Hin & Hrest)];
        [now left|].
      right. exists c', col, values. split; [now right | exact Hrest].
Qed.

(** What a successful load went through. *)
Lemma load_data_success_inv (f : File) (df' : DataFrame) (message : string) :
  load f = (Some df', message) ->
  exists df df1 name values,
    read_csv f = Return df /\
    detect timestamp_cols df = Return df1 /\
    index df1 = DatetimeIndex name values /\
    df' = set_column "DayOfWeek" (IntCol (map dt_dayofweek values))
            (set_column "Month" (IntCol (map dt_month values))
               (set_column "Hour" (IntCol (map dt_hour values)) df1)) /\
    message = ("Successfully loaded " ++ str_of_nat (len df') ++ " rows with "
               ++ str_of_nat (length (columns df')) ++ " columns")%string.
Proof.
  unfold load_data. intros H.
  destruct (try_block f) as [[d m]|e] eqn:Ht; [|discriminate].
  injection H as -> ->.
  unfold load_data_try in Ht.
  destruct (read_csv f) as [df|e] eqn:Hr; [|discriminate].
  rewrite bind_Return in Ht.
  destruct (detect timestamp_cols df) as [df1|e] eqn:Hd; [|discriminate].
  rewrite bind_Return in Ht.
  destruct (index df1) as [n|name values] eqn:Hi; [discriminate|].
  destruct (load_data_try_stamped File read_csv to_datetime f df df1 name values
              Hr Hd Hi) as (d' & Ht' & _ & Hd').
  unfold load_data_try in Ht'. rewrite Hr, bind_Return, Hd, bind_Return, Hi in Ht'.
  rewrite Ht in Ht'. injection Ht' as -> ->.
  exists df, df1, name, values. repeat split; try assumption.
Qed.

(** After a successful load, a column that is neither the new index nor a
    calendar column is the column that was read. *)
Lemma loaded_column_kept (f : File) (df df' : DataFrame) (message name : string) :
  read_csv f = Return df ->
  load f = (Some df', message) ->
  ~ In name timestamp_cols ->
  name <> "Hour" -> name <> "Month" -> name <> "DayOfWeek" ->
  get_column name df' = get_column name df.
Proof.
  intros Hr Hl Hts H1 H2 H3.
  destruct (load_data_success_inv f df' message Hl)
    as (df0 & df1 & c & values & Hr' & Hd & _ & -> & _).
  assert (df0 = df) by congruence. subst df0.
  rewrite !get_column_set_column_other by assumption.
  destruct (detect_timestamp_shape _ _ _ Hd)
    as [->|(c' & col & vs & Hin & _ & _ & ->)]; [reflexivity|].
  assert (Hne : name <> c') by (intros ->; contradiction).
  rewrite get_column_set_index_other, get_column_set_column_other by assumption.
  reflexivity.
Qed.

(** X7.  Loading does not change the score: the scorer gives the same
    result, record, null or exception, on the table [load_data] returns as
    on the table that was read. *)
Theorem loading_keeps_score (f : File) (df df' : DataFrame) (message : string) :
  read_csv f = Return df ->
  load f = (Some df', message) ->
  create_solar_score df' = create_solar_score df.
Proof.
  intros Hr Hl. apply create_solar_score_ext.
  - apply (loaded_column_kept f df df' message "GHI" Hr Hl);
      [unfold timestamp_cols; simpl; intuition discriminate | discriminate..].
  - apply (loaded_column_kept f df df' message "RH" Hr Hl);
      [unfold timestamp_cols; simpl; intuition discriminate | discriminate..].
Qed.

(** X8.  A successful load leaves a datetime index and the three calendar
    columns derived from it, and every column other than the index column
    and those three is unchanged. *)
Theorem loading_keeps_columns (f : File) (df df' : DataFrame) (message : string) :
  read_csv f = Return df ->
  load f = (Some df', message) ->
  exists c values,
    index df' = DatetimeIndex c values /\
    get_column "Hour" df' = Some (IntCol (map dt_hour values)) /\
    get_column "Month" df' = Some (IntCol (map dt_month values)) /\
    get_column "DayOfWeek" df' = Some (IntCol (map dt_dayofweek values)) /\
    forall name,
      name <> c -> name <> "Hour" -> name <> "Month" -> name <> "DayOfWeek" ->
      get_column name df' = get_column name df.
Proof.
  intros Hr Hl.
  destruct (load_data_success_inv f df' message Hl)
    as (df0 & df1 & c & values & Hr' & Hd & Hi & -> & _).
  assert (df0 = df) by congruence. subst df0.
  exists c, values. split; [exact Hi|].
  split; [|split; [|split]].
  - rewrite !get_column_set_column_other by discriminate.
    apply get_column_set_column_same.
  - rewrite get_column_set_column_other by discriminate.
    apply get_column_set_column_same.
  - apply get_column_set_column_same.
  - intros name Hc H1 H2 H3.
    rewrite !get_column_set_column_other by assumption.
    destruct (detect_timestamp_shape _ _ _ Hd)
      as [->|(c' & col & vs & _ & _ & _ & ->)]; [reflexivity|].
    simpl in Hi. injection Hi as -> ->.
    rewrite get_column_set_index_other, get_column_set_column_other by assumption.
    reflexivity.
Qed.

(** X9.  When [to_datetime] gives one value per cell, loading a
    rectangular table gives a rectangular table with the same number of
    rows, and that is the row count the message reports. *)
Theorem loading_keeps_shape (f : File) (df df' : DataFrame) (message : string) :
  (forall col values, to_datetime col = Return values ->
                      length values = column_length col) ->
  read_csv f = Return df ->
  rectangular df ->
  load f = (Some df', message) ->
  rectangular df' /\ len df' = len df /\
  message = ("Successfully loaded " ++ str_of_nat (len df) ++ " rows with "
             ++ str_of_nat (length (columns df')) ++ " columns")%string.
Proof.
  intros Hlen Hr Hrect Hl.
  destruct (load_data_success_inv f df' message Hl)
    as (df0 & df1 & c & values & Hr' & Hd & Hi & Hdf' & Hmsg).
  assert (df0 = df) by congruence. subst df0.
  assert (H1 : rectangular df1 /\ len df1 = len df).
  { destruct (detect_timestamp_shape _ _ _ Hd)
      as [->|(c' & col & vs & _ & Hcol & Hvs & ->)]; [now split|].
    assert (Hn : length vs = len df).
    { rewrite (Hlen col vs Hvs). apply (Hrect c' col), get_column_In, Hcol. }
    split; [|exact Hn].
    intros n k Hin. unfold set_index in Hin. simpl in Hin.
    apply filter_In in Hin. destruct Hin as [Hin _].
    apply In_assign in Hin. unfold len. simpl.
    destruct Hin as [H|H].
    - injection H as _ ->. reflexivity.
    - rewrite Hn. now apply (Hrect n k). }
  destruct H1 as [Hrect1 Hlen1].
  assert (Hv : length values = len df1) by (unfold len; now rewrite Hi).
  assert (Hshape : rectangular df' /\ len df' = len df).
  { subst df'. split; [|now rewrite !len_set_column].
    apply rectangular_set_column;
      [apply rectangular_set_column; [apply rectangular_set_column|]|];
      try assumption; rewrite ?len_set_column; simpl; now rewrite length_map. }
  destruct Hshape as [Hrect' Hlen'].
  split; [exact Hrect'|]. split; [exact Hlen'|].
  rewrite <- Hlen'. exact Hmsg.
Qed.

End LoaderComposition.

Lemma parse_all_length (ss : list string) (values : list datetime) :
  parse_all ss = Return values -> length values = length ss.
Proof.
  revert values. induction ss as [|s rest IH]; simpl; intros values H.
  - injection H as <-. reflexivity.
  - destruct (parse_iso s) as [t|]; [|discriminate].
    destruct (parse_all rest) as [ts|e]; [|discriminate].
    rewrite bind_Return in H. injection H as <-. simpl. f_equal. now apply IH.
Qed.

Lemma to_datetime_iso_length (col : Column) (values : list datetime) :
  to_datetime_iso col = Return values -> length values = column_length col.
Proof.
  destruct col; simpl; intros H; try discriminate.
  - now apply parse_all_length.
  - now injection H as <-.
Qed.

Lemma stamped_table_rectangular : rectangular stamped_table.
Proof.
  intros name c [H|[H|[H|[]]]]; injection H as _ <-; reflexivity.
Qed.

Lemma loading_keeps_score_witness :
  exists df' message,
    read_parsed stamped_table = Return stamped_table /\
    load_data DataFrame read_parsed to_datetime_iso stamped_table
    = (Some df', message) /\
    create_solar_score df' = create_solar_score stamped_table.
Proof.
  do 2 eexists. split; [reflexivity|]. split; [exact stamped_table_loaded|].
  exact (loading_keeps_score DataFrame read_parsed to_datetime_iso
           stamped_table stamped_table _ _ eq_refl stamped_table_loaded).
Defined.

Lemma loading_keeps_columns_witness :
  exists df' message,
    load_data DataFrame read_parsed to_datetime_iso stamped_table
    = (Some df', message) /\
    exists c values,
      index df' = DatetimeIndex c values /\
      get_column "Hour" df' = Some (IntCol (map dt_hour values)) /\
      get_column "Month" df' = Some (IntCol (map dt_month values)) /\
      get_column "DayOfWeek" df' = Some (IntCol (map dt_dayofweek values)) /\
      forall name,
        name <> c -> name <> "Hour" -> name <> "Month" -> name <> "DayOfWeek" ->
        get_column name df' = get_column name stamped_table.
Proof.
  do 2 eexists. split; [exact stamped_table_loaded|].
  exact (loading_keeps_columns DataFrame read_parsed to_datetime_iso
           stamped_table stamped_table _ _ eq_refl stamped_table_loaded).
Defined.

Lemma loading_keeps_shape_witness :
  exists df' message,
    load_data DataFrame read_parsed to_datetime_iso stamped_table
    = (Some df', message) /\
    rectangular df' /\ len df' = len stamped_table /\
    message = ("Successfully loaded " ++ str_of_nat (len stamped_table)
               ++ " rows with " ++ str_of_nat (length (columns df'))
               ++ " columns")%string.
Proof.
  do 2 eexists. split; [exact stamped_table_loaded|].
  exact (loading_keeps_shape DataFrame read_parsed to_datetime_iso
           stamped_table stamped_table _ _ to_datetime_iso_length eq_refl
           stamped_table_rectangular stamped_table_loaded).
Defined.

(** * Units and default metrics *)


Lemma firstn_all_short {A : Type} (l : list A) :
  (length l < 3)%nat -> firstn 3 l = l.
Proof. intros H. apply firstn_all2. lia. Qed.

Lemma numeric_cols_In (df : DataFrame) (name : string) :
  In name (numeric_cols df) ->
  exists c, In (name, c) (columns df) /\ is_number c = true.
Proof.
  unfold numeric_cols. intros H. apply in_map_iff in H.
  destruct H as [[k c] [Hk Hin]]. simpl in Hk. subst k.
  apply filter_In in Hin. destruct Hin as [Hin Hn]. now exists c.
Qed.

Lemma numeric_cols_assign_same (name : string) (col : Column)
      (cols : list (string * Column)) :
  is_number col = true ->
  In name (map fst (filter (fun c => is_number (snd c)) (assign name col cols))).
Proof.
  intros Hn. induction cols as [|[k v] t IH]; simpl.
  - rewrite Hn. now left.
  - destruct (String.eqb name k); simpl.
    + rewrite Hn. now left.
    + destruct (is_number v); [right|]; exact IH.
Qed.

Lemma numeric_cols_assign_other (n name : string) (col : Column)
      (cols : list (string * Column)) :
  n <> name ->
  In n (map fst (filter (fun c => is_number (snd c)) cols)) ->
  In n (map fst (filter (fun c => is_number (snd c)) (assign name col cols))).
Proof.
  intros Hne. induction cols as [|[k v] t IH]; simpl; [intros []|].
  destruct (String.eqb name k) eqn:Hk.
  - apply String.eqb_eq in Hk. subst k. simpl.
    destruct (is_number v); simpl.
    + intros [H|H]; [congruence|]. destruct (is_number col); [right|]; exact H.
    + intros H. destruct (is_number col); [right|]; exact H.
  - simpl. destruct (is_number v); simpl.
    + intros [H|H]; [now left | right; now apply IH].
    + exact IH.
Qed.

Lemma default_metrics_firstn (df : DataFrame) :
  default_metrics df = firstn 3 (numeric_cols df).
Proof.
  unfold default_metrics.
  destruct (Nat.leb_spec 3 (length (numeric_cols df))) as [Hl|Hl];
    [reflexivity | symmetry; now apply firstn_all_short].
Qed.

(** X11.  The default metric selection of the sidebar is always the first
    three numeric columns, or all of them when there are fewer: the test on
    the length changes nothing.  Every default is a numeric column of the
    table. *)
Theorem default_metrics_first_three (df : DataFrame) :
  default_metrics df = firstn 3 (numeric_cols df) /\
  (length (default_metrics df) <= 3)%nat /\
  (forall name, In name (default_metrics df) ->
     exists c, In (name, c) (columns df) /\ is_number c = true).
Proof.
  pose proof (default_metrics_firstn df) as H.
  split; [exact H|]. rewrite H. split.
  - rewrite length_firstn. lia.
  - intros name Hin. apply numeric_cols_In.
    rewrite <- (firstn_skipn 3 (numeric_cols df)).
    apply in_or_app. now left.
Qed.

Lemma numeric_cols_set_column_same (name : string) (col : Column) (df : DataFrame) :
  is_number col = true -> In name (numeric_cols (set_column name col df)).
Proof. intros H. unfold numeric_cols, set_column. simpl. now apply numeric_cols_assign_same. Qed.

Lemma numeric_cols_set_column_other (n name : string) (col : Column) (df : DataFrame) :
  n <> name -> In n (numeric_cols df) ->
  In n (numeric_cols (set_column name col df)).
Proof.
  intros Hne H. unfold numeric_cols, set_column. simpl.
  now apply numeric_cols_assign_other.
Qed.

(** X12.  On every table that [load_data] returns, the three calendar
    columns are numeric, so the sidebar always has exactly three default
    metrics to offer. *)
Theorem loaded_default_metrics
        (File : Type) (read_csv : File -> outcome DataFrame)
        (to_datetime : Column -> outcome (list datetime))
        (f : File) (df' : DataFrame) (message : string) :
  load_data File read_csv to_datetime f = (Some df', message) ->
  In "Hour" (numeric_cols df') /\ In "Month" (numeric_cols df') /\
  In "DayOfWeek" (numeric_cols df') /\
  length (default_metrics df') = 3%nat.
Proof.
  intros Hl.
  destruct (load_data_success_inv File read_csv to_datetime f df' message Hl)
    as (df & df1 & c & values & _ & _ & _ & -> & _).
  set (d1 := set_column "Hour" (IntCol (map dt_hour values)) df1).
  set (d2 := set_column "Month" (IntCol (map dt_month values)) d1).
  set (d3 := set_column "DayOfWeek" (IntCol (map dt_dayofweek values)) d2).
  assert (Hh : In "Hour" (numeric_cols d3)).
  { apply numeric_cols_set_column_other; [discriminate|].
    apply numeric_cols_set_column_other; [discriminate|].
    now apply numeric_cols_set_column_same. }
  assert (Hm : In "Month" (numeric_cols d3)).
  { apply numeric_cols_set_column_other; [discriminate|].
    now apply numeric_cols_set_column_same. }
  assert (Hd : In "DayOfWeek" (numeric_cols d3))
    by now apply numeric_cols_set_column_same.
  repeat (split; [assumption|]).
  assert (Hlen : (3 <= length (numeric_cols d3))%nat).
  { change 3%nat with (length ["Hour"; "Month"; "DayOfWeek"]).
    apply NoDup_incl_length.
    - repeat constructor; simpl; intuition discriminate.
    - intros x [<-|[<-|[<-|[]]]]; assumption. }
  rewrite (default_metrics_firstn d3).
  rewrite length_firstn. lia.
Qed.

Lemma loaded_default_metrics_witness :
  exists df' message,
    load_data DataFrame read_parsed to_datetime_iso stamped_table
    = (Some df', message) /\
    In "Hour" (numeric_cols df') /\ In "Month" (numeric_cols df') /\
    In "DayOfWeek" (numeric_cols df') /\
    length (default_metrics df') = 3%nat.
Proof.
  do 2 eexists. split; [exact stamped_table_loaded|].
  exact (loaded_default_metrics DataFrame read_parsed to_datetime_iso
           stamped_table _ _ stamped_table_loaded).
Defined.

(** * The daily pattern figure *)


Lemma In_insert_key_Z (h k : Z) (ks : list Z) :
  In h (insert_key Z Z.leb k ks) <-> h = k \/ In h ks.
Proof.
  induction ks as [|y t IH]; simpl; [intuition|].
  destruct (Z.leb_spec k y) as [Hky|Hky].
  - destruct (Z.leb_spec y k) as [Hyk|Hyk]; simpl.
    + assert (y = k) by lia. subst y. intuition.
    + intuition.
  - simpl. rewrite IH. intuition.
Qed.

Lemma insert_key_sorted_Z (k : Z) (ks : list Z) :
  StronglySorted Z.lt ks -> StronglySorted Z.lt (insert_key Z Z.leb k ks).
Proof.
  induction ks as [|y t IH]; intros Hs; simpl.
  - constructor; constructor.
  - pose proof (StronglySorted_inv Hs) as [Ht Hy].
    destruct (Z.leb_spec k y) as [Hky|Hky].
    + destruct (Z.leb_spec y k) as [Hyk|Hyk]; [exact Hs|].
      constructor; [exact Hs|].
      constructor; [lia|].
      rewrite Forall_forall in *. intros z Hz. specialize (Hy z Hz). lia.
    + constructor; [now apply IH|].
      rewrite Forall_forall in *. intros z Hz.
      apply In_insert_key_Z in Hz. destruct Hz as [->|Hz]; [lia | now apply Hy].
Qed.

Lemma In_group_keys_Z (h : Z) (hs : list Z) :
  In h (group_keys Z Z.leb hs) <-> In h hs.
Proof.
  induction hs as [|a t IH]; simpl; [tauto|].
  rewrite In_insert_key_Z, IH. intuition.
Qed.

Lemma group_keys_sorted_Z (hs : list Z) :
  StronglySorted Z.lt (group_keys Z Z.leb hs).
Proof.
  induction hs as [|a t IH]; simpl; [constructor | now apply insert_key_sorted_Z].
Qed.






(** The figure built for an integer hour column. *)
Lemma create_daily_pattern_int (df : DataFrame) (hs : list Z) (ghi : list R) :
  get_column "Hour" df = Some (IntCol hs) ->
  series "GHI" df = Return ghi ->
  let ks := group_keys Z Z.leb hs in
  let rows := combine hs ghi in
  let means := map (fun k => mean (group_rows Z Z.leb k rows)) ks in
  let stds := map (fun k => std (group_rows Z Z.leb k rows)) ks in
  create_daily_pattern df
  = Return (Some (mkFigure
      [ mkScatter (IntCol ks) means "lines+markers" "Average GHI"
                  (mkLine "#FF6B00" 3 None) None;
        mkScatter (IntCol ks) (series_add means stds) "lines" "+1 STD"
                  (mkLine "gray" 1 (Some "dash")) None;
        mkScatter (IntCol ks) (series_sub means stds) "lines" "-1 STD"
                  (mkLine "gray" 1 (Some "dash")) (Some "tonexty") ]
      (Some "Daily Solar Pattern with Variability")
      (Some "Hour of Day") (Some "GHI (W/m²)"))).
Proof.
  intros Hh Hg. cbv zeta. unfold create_daily_pattern.
  rewrite (series_has_column _ _ _ Hg).
  assert (Hhas : has_column "Hour" df = true)
    by (apply has_column_get_column; eauto).
  rewrite Hhas, Hh, Hg. reflexivity.
Qed.

Lemma length_series_add (a b : list num) :
  length a = length b -> length (series_add a b) = length a.
Proof.
  intros H. unfold series_add. rewrite length_map, length_combine. lia.
Qed.

Lemma length_series_sub (a b : list num) :
  length a = length b -> length (series_sub a b) = length a.
Proof.
  intros H. unfold series_sub. rewrite length_map, length_combine. lia.
Qed.




(** The three traces of any figure the function builds. *)
Lemma create_daily_pattern_some (df : DataFrame) (hour : Column) (ghi : list R) :
  get_column "Hour" df = Some hour ->
  series "GHI" df = Return ghi ->
  exists hp,
    hp = hourly_pattern hour ghi /\
    length (hp_mean hp) = column_length (hp_Hour hp) /\
    length (hp_std hp) = column_length (hp_Hour hp) /\
    create_daily_pattern df
    = Return (Some (mkFigure
        [ mkScatter (hp_Hour hp) (hp_mean hp) "lines+markers" "Average GHI"
                    (mkLine "#FF6B00" 3 None) None;
          mkScatter (hp_Hour hp) (series_add (hp_mean hp) (hp_std hp))
                    "lines" "+1 STD" (mkLine "gray" 1 (Some "dash")) None;
          mkScatter (hp_Hour hp) (series_sub (hp_mean hp) (hp_std hp))
                    "lines" "-1 STD" (mkLine "gray" 1 (Some "dash"))
                    (Some "tonexty") ]
        (Some "Daily Solar Pattern with Variability")
        (Some "Hour of Day") (Some "GHI (W/m²)"))).
Proof.
  intros Hh Hg. exists (hourly_pattern hour ghi).
  split; [reflexivity|].
  split; [|split].
  - destruct hour; simpl; now rewrite length_map.
  - destruct hour; simpl; now rewrite length_map.
  - unfold create_daily_pattern.
    rewrite (series_has_column _ _ _ Hg).
    assert (Hhas : has_column "Hour" df = true)
      by (apply has_column_get_column; eauto).
    rewrite Hhas, Hh, Hg. reflexivity.
Qed.

(** X13.  [create_daily_pattern] returns the null result when the table
    lacks a [GHI] or an [Hour] column.  With an [Hour] column and a numeric
    [GHI] column it returns a figure of exactly three traces, named Average
    GHI, +1 STD and -1 STD in that order, which share one x axis and have
    one y value per x value. *)
Theorem daily_pattern_three_traces (df : DataFrame) :
  (has_column "GHI" df = false \/ has_column "Hour" df = false ->
   create_daily_pattern df = Return None) /\
  (forall ghi,
      has_column "Hour" df = true ->
      series "GHI" df = Return ghi ->
      exists fig x,
        create_daily_pattern df = Return (Some fig) /\
        map scatter_name (fig_data fig) = ["Average GHI"; "+1 STD"; "-1 STD"] /\
        Forall (fun tr => scatter_x tr = x /\
                          length (scatter_y tr) = column_length x)
               (fig_data fig)).
Proof.
  split.
  - intros [H|H]; unfold create_daily_pattern; rewrite H;
      [reflexivity | now rewrite andb_false_r].
  - intros ghi Hh Hg.
    apply has_column_get_column in Hh. destruct Hh as [hour Hh].
    destruct (create_daily_pattern_some df hour ghi Hh Hg)
      as (hp & _ & Hm & Hs & Hfig).
    eexists. exists (hp_Hour hp). split; [exact Hfig|].
    split; [reflexivity|]. simpl.
    repeat constructor; simpl; try assumption.
    + rewrite length_series_add; congruence.
    + rewrite length_series_sub; congruence.
Qed.

Lemma daily_pattern_three_traces_witness :
  (has_column "GHI" humidity_only_table = false \/
   has_column "Hour" humidity_only_table = false ->
   create_daily_pattern humidity_only_table = Return None) /\
  (has_column "Hour" hourly_table = true ->
   series "GHI" hourly_table = Return [40; 250; 60] ->
   exists fig x,
     create_daily_pattern hourly_table = Return (Some fig) /\
     map scatter_name (fig_data fig) = ["Average GHI"; "+1 STD"; "-1 STD"] /\
     Forall (fun tr => scatter_x tr = x /\
                       length (scatter_y tr) = column_length x)
            (fig_data fig)).
Proof.
  split.
  - exact (proj1 (daily_pattern_three_traces humidity_only_table)).
  - exact (proj2 (daily_pattern_three_traces hourly_table) [40; 250; 60]).
Defined.

(** X14.  With an integer [Hour] column, the x axis of every trace lists
    the hours that occur in the table, each hour once, in strictly
    increasing order. *)
Theorem daily_pattern_hours_sorted (df : DataFrame) (hs : list Z) (ghi : list R) :
  get_column "Hour" df = Some (IntCol hs) ->
  series "GHI" df = Return ghi ->
  exists fig ks,
    create_daily_pattern df = Return (Some fig) /\
    Forall (fun tr => scatter_x tr = IntCol ks) (fig_data fig) /\
    StronglySorted Z.lt ks /\
    (forall h, In h ks <-> In h hs).
Proof.
  intros Hh Hg.
  pose proof (create_daily_pattern_int df hs ghi Hh Hg) as Hfig.
  cbv zeta in Hfig.
  eexists. exists (group_keys Z Z.leb hs). split; [exact Hfig|].
  split; [repeat constructor|].
  split; [apply group_keys_sorted_Z | intros h; apply In_group_keys_Z].
Qed.

Lemma daily_pattern_hours_sorted_witness :
  exists fig ks,
    create_daily_pattern hourly_table = Return (Some fig) /\
    Forall (fun tr => scatter_x tr = IntCol ks) (fig_data fig) /\
    StronglySorted Z.lt ks /\
    (forall h, In h ks <-> In h [6; 12; 6]%Z).
Proof.
  exact (daily_pattern_hours_sorted hourly_table [6; 12; 6]%Z [40; 250; 60]
           eq_refl eq_refl).
Defined.




(** X16.  On every table that [load_data] returns, the daily pattern is
    available exactly when there is a [GHI] column: without one the result
    is null, and with a numeric one the figure's x axis lists, in
    increasing order and once each, the hours of the day at which the
    index has a timestamp. *)
Theorem daily_pattern_after_load
        (File : Type) (read_csv : File -> outcome DataFrame)
        (to_datetime : Column -> outcome (list datetime))
        (f : File) (df' : DataFrame) (message : string) :
  load_data File read_csv to_datetime f = (Some df', message) ->
  (has_column "GHI" df' = false -> create_daily_pattern df' = Return None) /\
  (forall ghi,
      series "GHI" df' = Return ghi ->
      exists fig ks c values,
        index df' = DatetimeIndex c values /\
        create_daily_pattern df' = Return (Some fig) /\
        Forall (fun tr => scatter_x tr = IntCol ks) (fig_data fig) /\
        StronglySorted Z.lt ks /\
        (forall h, In h ks <-> exists t, In t values /\ dt_hour t = h)).
Proof.
  intros Hl.
  destruct (load_data_success_inv File read_csv to_datetime f df' message Hl)
    as (df & df1 & c & values & _ & _ & Hi & Hdf' & _).
  assert (Hh : get_column "Hour" df' = Some (IntCol (map dt_hour values))).
  { subst df'. rewrite !get_column_set_column_other by discriminate.
    apply get_column_set_column_same. }
  split.
  - intros Hno. unfold create_daily_pattern. now rewrite Hno.
  - intros ghi Hg.
    pose proof (create_daily_pattern_int df' _ ghi Hh Hg) as Hfig.
    cbv zeta in Hfig.
    eexists. exists (group_keys Z Z.leb (map dt_hour values)), c, values.
    split; [subst df'; exact Hi|]. split; [exact Hfig|].
    split; [repeat constructor|].
    split; [apply group_keys_sorted_Z|].
    intros h. rewrite In_group_keys_Z, in_map_iff.
    split; intros [t [H1 H2]]; exists t; tauto.
Qed.

Lemma daily_pattern_after_load_witness :
  exists df' message,
    load_data DataFrame read_parsed to_datetime_iso stamped_table
    = (Some df', message) /\
    (has_column "GHI" df' = false -> create_daily_pattern df' = Return None) /\
    (forall ghi,
        series "GHI" df' = Return ghi ->
        exists fig ks c values,
          index df' = DatetimeIndex c values /\
          create_daily_pattern df' = Return (Some fig) /\
          Forall (fun tr => scatter_x tr = IntCol ks) (fig_data fig) /\
          StronglySorted Z.lt ks /\
          (forall h, In h ks <-> exists t, In t values /\ dt_hour t = h)).
Proof.
  do 2 eexists. split; [exact stamped_table_loaded|].
  exact (daily_pattern_after_load DataFrame read_parsed to_datetime_iso
           stamped_table _ _ stamped_table_loaded).
Defined.
